(** * Financial-advisor agent: session registry, event stream bridge and
      market-data tools

    A shallow embedding of [agent/agent.py] (the per-thread session manager,
    the HTTP handler and its streaming generator) and of
    [agent/tools/yfinance_tools.py] (the numeric sanitizer and the five
    retrieval tools), together with the properties the design document
    states about them. *)

From Stdlib Require Import ZArith List String Ascii Bool Lia.
From Stdlib Require Import Floats.SpecFloat.
From stdpp Require Import base option list strings gmap fin_maps pretty.
Import ListNotations.

Local Open Scope string_scope.
Local Open Scope Z_scope.
Local Open Scope list_scope.

(** ** Python exceptions as values *)

Module Py.

(** The exception classes the sources name in their [except] clauses, and
    the ones the built-in conversions raise. *)
Inductive ExcClass :=
| ValueError
| TypeError
| OverflowError
| KeyError
| AttributeError
| RuntimeError.

(** An exception object: its class and [str(e)]. *)
Record exn := mk_exn { exc_class : ExcClass; exc_str : string }.

(** A computation that either returns or raises. *)
Inductive Exc (A : Type) :=
| Return (a : A)
| Raise (e : exn).
Arguments Return {A} a.
Arguments Raise {A} e.

Definition bind {A B} (c : Exc A) (k : A -> Exc B) : Exc B :=
  match c with
  | Return a => k a
  | Raise e => Raise e
  end.

(** [try: c except (classes) : h] -- only the listed classes are caught. *)
Definition try_except {A} (c : Exc A) (catches : ExcClass -> bool)
    (h : exn -> Exc A) : Exc A :=
  match c with
  | Return a => Return a
  | Raise e => if catches (exc_class e) then h e else Raise e
  end.

(** [try: c except Exception as e: return h e] at the end of a function:
    every exception is turned into a returned value. *)
Definition try_except_Exception {A} (c : Exc A) (h : exn -> A) : A :=
  match c with
  | Return a => a
  | Raise e => h e
  end.

End Py.
Import Py.

Notation "'do' x <- c1 ; c2" := (Py.bind c1 (fun x => c2))
  (at level 10, x name, c1 at level 100, c2 at level 200).

(** [needle] occurs somewhere inside [s]. *)
Definition contains (s needle : string) : Prop :=
  exists before after, s = before +:+ needle +:+ after.

(** ** The event stream bridge ([event_generator] in [handle_request]) *)

Module Bridge.

(** Events of the agent protocol.  The generator itself only ever builds
    [RunErrorEvent]; the others come from the agent run. *)
Inductive Event :=
| TextMessageContentEvent (message_id delta : string)
| ToolCallStartEvent (tool_call_id tool_call_name : string)
| RunErrorEvent (message code : string)
| RunFinishedEvent (thread_id run_id : string).

(** How the asynchronous iterator [agent.run(input_data)] ends once its
    events are exhausted: [StopAsyncIteration], or an exception raised by
    the generator itself. *)
Inductive Ending :=
| StopAsyncIteration
| Raised (agent_error : exn).

(** The event source: the events it would deliver, in order, and how it
    ends after them. *)
Record Source := mk_source { events : list Event; ending : Ending }.

(** The five [yield] statements of [event_generator]. *)
Inductive YieldSite :=
| YieldEncoded            (* yield encoded *)
| YieldEncodingError      (* yield error_encoded, encoding handler *)
| YieldEncodingFallback   (* the literal of the encoding handler *)
| YieldAgentError         (* yield error_encoded, agent handler *)
| YieldAgentFallback.     (* the literal of the agent handler *)

(** A chunk handed to the transport, tagged with the statement that
    yielded it. *)
Record Chunk := mk_chunk { site : YieldSite; text : string }.

(** An error chunk is one yielded by a handler, not by the loop body. *)
Definition is_error_chunk (c : Chunk) : bool :=
  match site c with
  | YieldEncoded => false
  | _ => true
  end.

Definition newline : string := String (ascii_of_nat 10) EmptyString.
Definition dquote : string := String (ascii_of_nat 34) EmptyString.

(** The hand-written SSE chunk of the innermost handlers: an
    [event: error] line, a [data:] line holding a JSON object with the one
    key [error], and a blank line. *)
Definition basic_sse_error (what : string) : string :=
  "event: error" +:+ newline +:+ "data: {" +:+ dquote +:+ "error" +:+ dquote
  +:+ ": " +:+ dquote +:+ what +:+ dquote +:+ "}" +:+ newline +:+ newline.

Definition encoding_fallback_literal : string :=
  basic_sse_error "Event encoding failed".
Definition agent_fallback_literal : string :=
  basic_sse_error "Agent execution failed".

Section Generator.
(** [encoder.encode]: pure, and free to raise. *)
Variable encode : Event -> Exc string.

(** The handler of [except Exception as encoding_error]. *)
Definition on_encoding_error (encoding_error : exn) : Chunk :=
  let error_event :=
    RunErrorEvent ("Event encoding failed: " +:+ exc_str encoding_error)
                  "ENCODING_ERROR" in
  match encode error_event with
  | Return error_encoded => mk_chunk YieldEncodingError error_encoded
  | Raise _ => mk_chunk YieldEncodingFallback encoding_fallback_literal
  end.

(** The handler of [except Exception as agent_error]. *)
Definition on_agent_error (agent_error : exn) : Chunk :=
  let error_event :=
    RunErrorEvent ("Agent execution failed: " +:+ exc_str agent_error)
                  "AGENT_ERROR" in
  match encode error_event with
  | Return error_encoded => mk_chunk YieldAgentError error_encoded
  | Raise _ => mk_chunk YieldAgentFallback agent_fallback_literal
  end.

(** What one run of the generator did: the chunks it yielded, and the
    events it left in the source without pulling them. *)
Record Run := mk_run { yielded : list Chunk; unconsumed : list Event }.

Definition consumed (src : Source) (r : Run) : nat :=
  (length (events src) - length (unconsumed r))%nat.

(** The [async for] loop with both handlers.  An encoding failure yields
    one chunk and [break]s; an exception from the iterator reaches the
    outer handler, which yields one chunk. *)
Fixpoint async_for (evs : list Event) (e : Ending) : Run :=
  match evs with
  | [] =>
      match e with
      | StopAsyncIteration => mk_run [] []
      | Raised agent_error => mk_run [on_agent_error agent_error] []
      end
  | event :: rest =>
      match encode event with
      | Return encoded =>
          let r := async_for rest e in
          mk_run (mk_chunk YieldEncoded encoded :: yielded r) (unconsumed r)
      | Raise encoding_error =>
          mk_run [on_encoding_error encoding_error] rest
      end
  end.

Definition event_generator (src : Source) : Run :=
  async_for (events src) (ending src).

(** The byte stream the client sees. *)
Definition stream (src : Source) : list string :=
  map text (yielded (event_generator src)).

(** An execution fails when the iterator raises or some event it would
    deliver cannot be encoded. *)
Definition encoding_fails (ev : Event) : Prop :=
  exists err, encode ev = Raise err.

Definition failing (src : Source) : Prop :=
  (exists agent_error, ending src = Raised agent_error)
  \/ Exists encoding_fails (events src).
End Generator.

(** A sample encoder in the shape of the server-sent-events encoder: it
    refuses events carrying an empty payload. *)
Definition render (ev : Event) : Exc string :=
  match ev with
  | TextMessageContentEvent _ EmptyString =>
      Raise (mk_exn ValueError "Delta must not be an empty string")
  | TextMessageContentEvent mid delta => Return ("TEXT_MESSAGE_CONTENT " +:+ delta)
  | ToolCallStartEvent _ name => Return ("TOOL_CALL_START " +:+ name)
  | RunErrorEvent message code => Return ("RUN_ERROR " +:+ code +:+ " " +:+ message)
  | RunFinishedEvent _ _ => Return "RUN_FINISHED"
  end.

Definition sse_encode (ev : Event) : Exc string :=
  do payload <- render ev;
  Return ("data: " +:+ payload +:+ newline +:+ newline).

(** The same encoder with a budget on the payload size; with a small
    budget it cannot even encode the synthetic error event. *)
Definition limited_encode (limit : nat) (ev : Event) : Exc string :=
  do payload <- render ev;
  if (String.length payload <=? limit)%nat
  then Return ("data: " +:+ payload +:+ newline +:+ newline)
  else Raise (mk_exn ValueError "payload too large").

End Bridge.

(** ** The session manager and the HTTP handler ([agent/agent.py]) *)

Module Sessions.

(** An [ADKAgent] object.  [object_id] is the identity of the Python
    object ([id(agent)]): two references denote the same instance exactly
    when their identities agree. *)
Record ADKAgent := mk_agent {
  object_id : nat;
  app_name : string;
  user_id : string;
  session_timeout_seconds : Z;
  use_in_memory_services : bool
}.

(** The process state the handler touches: the [sessions] dict of the one
    [SessionManager], the number of agents constructed so far (which is
    also the identity the next one receives), and what was printed. *)
Record SessionManager := mk_manager {
  sessions : gmap string ADKAgent;
  constructed : nat;
  stdout : list string
}.

(** [session_manager = SessionManager()] *)
Definition init : SessionManager := mk_manager ∅ 0 [].

(** [create_agent(thread_id)]: a fresh [ADKAgent] bound to the thread. *)
Definition create_agent (thread_id : string) (fresh : nat) : ADKAgent :=
  mk_agent fresh "finacial_advisor_app" thread_id 3600 true.

(** [SessionManager.get_agent(thread_id)] *)
Definition get_agent (thread_id : string) (self : SessionManager)
    : ADKAgent * SessionManager :=
  match sessions self !! thread_id with
  | None =>
      let agent := create_agent thread_id (constructed self) in
      (agent,
       mk_manager (<[thread_id := agent]> (sessions self))
                  (S (constructed self))
                  (stdout self ++
                     ["‚ú® Creating new agent session for thread: " +:+ thread_id]))
  | Some agent => (agent, self)
  end.

(** A run of [get_agent] calls, one after the other, with the agents they
    returned. *)
Fixpoint get_agents (thread_ids : list string) (self : SessionManager)
    : list ADKAgent * SessionManager :=
  match thread_ids with
  | [] => ([], self)
  | t :: ts =>
      let '(a, self1) := get_agent t self in
      let '(rest, self2) := get_agents ts self1 in
      (a :: rest, self2)
  end.

(** Request headers as the ASGI server delivers them: (name, value) pairs
    in arrival order, names in lower case. *)
Definition Headers := list (string * string).

Definition lower_ascii (c : ascii) : ascii :=
  let n := nat_of_ascii c in
  if ((65 <=? n) && (n <=? 90))%nat then ascii_of_nat (n + 32) else c.

Fixpoint lower (s : string) : string :=
  match s with
  | EmptyString => EmptyString
  | String c rest => String (lower_ascii c) (lower rest)
  end.

(** [request.headers.get(key, default)]: the first value stored under the
    lower-cased key. *)
Fixpoint headers_lookup (key : string) (h : Headers) : option string :=
  match h with
  | [] => None
  | (name, value) :: rest =>
      if String.eqb name key then Some value else headers_lookup key rest
  end.

Definition headers_get (key default : string) (h : Headers) : string :=
  match headers_lookup (lower key) h with
  | Some v => v
  | None => default
  end.

(** [request.headers.get(key)], whose default is [None]. *)
Definition headers_get_or_None (key : string) (h : Headers) : option string :=
  headers_lookup (lower key) h.

(** What [handle_request] has set up when it returns its
    [StreamingResponse]: the thread it chose, the agent that will run, and
    the accept header handed to the encoder. *)
Record Handled := mk_handled {
  thread_id : string;
  agent : ADKAgent;
  accept_header : option string
}.

(** [handle_request(input_data, request)] up to the returned response.
    The body has no [await]: it runs from entry to [return] without
    yielding to the event loop. *)
Definition handle_request (headers : Headers) (sm : SessionManager)
    : Handled * SessionManager :=
  let thread_id := headers_get "x-thread-id" "default_thread" headers in
  let '(agent, sm1) := get_agent thread_id sm in
  let accept_header := headers_get_or_None "accept" headers in
  (mk_handled thread_id agent accept_header, sm1).

(** The object [health_check()] returns. *)
Record Health := mk_health {
  status : string;
  health_agent : string;
  tools : list string;
  active_sessions : nat
}.

(** [health_check()] *)
Definition health_check (sm : SessionManager) : Health :=
  mk_health "healthy" "google_search_assistant" ["google_search"]
            (size (sessions sm)).

(** *** Requests in flight on the event loop

    Each POST is one task.  The loop switches tasks only where a task
    awaits: a task first runs the whole of [handle_request], and is then
    suspended and resumed once per step of its response stream. *)
Inductive Task :=
| Accepted (headers : Headers) (stream_steps : nat)
| Streaming (h : Handled) (stream_steps : nat)
| Finished (h : Handled).

(** Resume one task until its next suspension point. *)
Definition resume (t : Task) (sm : SessionManager) : Task * SessionManager :=
  match t with
  | Accepted headers n =>
      let '(h, sm1) := handle_request headers sm in (Streaming h n, sm1)
  | Streaming h (S n) => (Streaming h n, sm)
  | Streaming h O => (Finished h, sm)
  | Finished h => (Finished h, sm)
  end.

Record Loop := mk_loop { tasks : list Task; manager : SessionManager }.

(** The loop resumes task [i]; a stale index does nothing. *)
Definition step (i : nat) (l : Loop) : Loop :=
  match tasks l !! i with
  | None => l
  | Some t =>
      let '(t1, sm1) := resume t (manager l) in
      mk_loop (<[i := t1]> (tasks l)) sm1
  end.

(** A schedule is the order in which the loop resumes tasks. *)
Definition run (schedule : list nat) (l : Loop) : Loop :=
  fold_left (fun l i => step i l) schedule l.

(** The agent a task holds once [handle_request] has run for it. *)
Definition holds (t : Task) : option ADKAgent :=
  match t with
  | Accepted _ _ => None
  | Streaming h _ | Finished h => Some (agent h)
  end.

(** The thread a task works for. *)
Definition thread_of (t : Task) : string :=
  match t with
  | Accepted headers _ => headers_get "x-thread-id" "default_thread" headers
  | Streaming h _ | Finished h => thread_id h
  end.

(** A request that has arrived and not run yet. *)
Definition waiting (t : Task) : Prop :=
  match t with
  | Accepted _ _ => True
  | _ => False
  end.

(** What every loop state reachable from requests for one thread [s]
    satisfies, [sm] being the manager they found: all tasks work for [s];
    either nothing ran yet, or the manager is the one the first
    [get_agent s] left and whoever holds an agent holds the one that call
    returned. *)
Definition race_invariant (s : string) (sm : SessionManager) (l : Loop) : Prop :=
  Forall (fun t => thread_of t = s) (tasks l)
  /\ ((manager l = sm /\ Forall (fun t => holds t = None) (tasks l))
      \/ (manager l = (get_agent s sm).2
          /\ Forall (fun t => holds t = None
                              \/ holds t = Some (get_agent s sm).1)
                    (tasks l))).

End Sessions.

(** ** The market-data tools ([agent/tools/yfinance_tools.py]) *)

Module Tools.

(** *** Python values *)

(** Python floats are IEEE binary64. *)
Definition prec : Z := 53.
Definition emax : Z := 1024.

Definition inf : spec_float := S754_infinity false.
Definition neg_inf : spec_float := S754_infinity true.
Definition nan : spec_float := S754_nan.

(** Scalars: what a dict entry of [Ticker.info] or a cell of a DataFrame
    holds. *)
Inductive Scalar :=
| SNone
| SBool (b : bool)
| SInt (z : Z)
| SFloat (f : spec_float)
| SStr (s : string).

(** JSON-like values of the returned records.  A dict is kept in
    insertion order. *)
#[local] Set Warnings "-register-all".
Inductive Value :=
| Atom (a : Scalar)
| VList (items : list Value)
| VDict (entries : list (string * Value)).

Abbreviation Dict := (list (string * Value)).

Definition None_ : Value := Atom SNone.
Definition Str (s : string) : Value := Atom (SStr s).
Definition Float (f : spec_float) : Value := Atom (SFloat f).
Definition Int (z : Z) : Value := Atom (SInt z).

Definition is_None (v : Value) : bool :=
  match v with
  | Atom SNone => true
  | _ => false
  end.

(** [d.get(key)] on a dict *)
Fixpoint dict_lookup (key : string) (d : Dict) : option Value :=
  match d with
  | [] => None
  | (k, v) :: rest => if String.eqb k key then Some v else dict_lookup key rest
  end.

Definition dict_get (key : string) (d : Dict) : Value :=
  default None_ (dict_lookup key d).

Definition dict_get_default (key : string) (dflt : Value) (d : Dict) : Value :=
  default dflt (dict_lookup key d).

(** [bool(v)] *)
Definition truthy (v : Value) : bool :=
  match v with
  | Atom SNone => false
  | Atom (SBool b) => b
  | Atom (SInt z) => negb (z =? 0)
  | Atom (SFloat (S754_zero _)) => false
  | Atom (SFloat _) => true
  | Atom (SStr s) => negb (String.eqb s EmptyString)
  | VList l => negb (Nat.eqb (length l) 0)
  | VDict d => negb (Nat.eqb (length d) 0)
  end.

(** [a or b] *)
Definition py_or (a b : Value) : Value := if truthy a then a else b.

Definition upper_ascii (c : ascii) : ascii :=
  let n := nat_of_ascii c in
  if ((97 <=? n) && (n <=? 122))%nat then ascii_of_nat (n - 32) else c.

(** [s.upper()] on the ASCII letters of a ticker symbol. *)
Fixpoint upper (s : string) : string :=
  match s with
  | EmptyString => EmptyString
  | String c rest => String (upper_ascii c) (upper rest)
  end.

(** The parts of the interpreter and of [datetime] the tools call and
    whose algorithms are not spelled out here. *)
Class PyRuntime := {
  (** [float(s)] on a string; raises [ValueError] on a malformed one *)
  float_of_str : string -> Exc spec_float;
  (** [int(s)] on a string *)
  int_of_str : string -> Exc Z;
  (** [str(x)] on a scalar *)
  str_of : Scalar -> string;
  (** [datetime.strptime(s, "%Y-%m-%d")], as seconds on the naive clock *)
  strptime_ymd : string -> Exc Z
}.

Section WithRuntime.
Context `{PyRuntime}.

Definition float_of_bool (b : bool) : spec_float :=
  if b then binary_normalize prec emax 1 0 false else S754_zero false.

(** [float(value)] *)
Definition py_float (value : Value) : Exc spec_float :=
  match value with
  | Atom SNone =>
      Raise (mk_exn TypeError
        "float() argument must be a string or a real number, not 'NoneType'")
  | Atom (SBool b) => Return (float_of_bool b)
  | Atom (SInt z) =>
      match binary_normalize prec emax z 0 false with
      | S754_infinity _ =>
          Raise (mk_exn OverflowError "int too large to convert to float")
      | f => Return f
      end
  | Atom (SFloat f) => Return f
  | Atom (SStr s) => float_of_str s
  | VList _ =>
      Raise (mk_exn TypeError
        "float() argument must be a string or a real number, not 'list'")
  | VDict _ =>
      Raise (mk_exn TypeError
        "float() argument must be a string or a real number, not 'dict'")
  end.

(** Truncation toward zero of a finite float. *)
Definition trunc (s : bool) (m : positive) (e : Z) : Z :=
  let magnitude :=
    if 0 <=? e then Zpos m * 2 ^ e else Zpos m / 2 ^ (- e) in
  if s then - magnitude else magnitude.

(** [int(x)] on a scalar *)
Definition py_int (x : Scalar) : Exc Z :=
  match x with
  | SNone =>
      Raise (mk_exn TypeError
        "int() argument must be a string, a bytes-like object or a real number, not 'NoneType'")
  | SBool b => Return (if b then 1 else 0)
  | SInt z => Return z
  | SFloat S754_nan =>
      Raise (mk_exn ValueError "cannot convert float NaN to integer")
  | SFloat (S754_infinity _) =>
      Raise (mk_exn OverflowError "cannot convert float infinity to integer")
  | SFloat (S754_zero _) => Return 0
  | SFloat (S754_finite s m e) => Return (trunc s m e)
  | SStr s => int_of_str s
  end.

(** Nearest integer to [n / d] for [d > 0], ties to even. *)
Definition round_half_even (n d : Z) : Z :=
  let q := n / d in
  match 2 * (n mod d) ?= d with
  | Lt => q
  | Gt => q + 1
  | Eq => if Z.even q then q else q + 1
  end.

(** [round(x, 2)] on a float: infinities and NaN round to themselves; a
    finite value is rounded to two decimals from its exact binary value
    and the decimal is read back as the nearest float. *)
Definition py_round2 (x : spec_float) : spec_float :=
  match x with
  | S754_finite s m e =>
      if 0 <=? e then x
      else
        match round_half_even (Zpos m * 100) (2 ^ (- e)) with
        | Zpos hundredths =>
            SFdiv prec emax (S754_finite s hundredths 0)
                            (S754_finite false 100 0)
        | _ => S754_zero s
        end
  | _ => x
  end.

(** [pd.isna] / [pd.notna] on a scalar: [None] and NaN are missing,
    infinities are not. *)
Definition pd_isna (x : Scalar) : bool :=
  match x with
  | SNone => true
  | SFloat S754_nan => true
  | _ => false
  end.

Definition pd_notna (x : Scalar) : bool := negb (pd_isna x).

Definition is_finite (f : spec_float) : bool :=
  match f with
  | S754_zero _ | S754_finite _ _ _ => true
  | _ => false
  end.

(** *** [safe_float] *)

Definition catches_ValueError_TypeError (c : ExcClass) : bool :=
  match c with
  | ValueError | TypeError => true
  | _ => false
  end.

(** [safe_float(value)]: the result is [None] or a float. *)
Definition safe_float (value : Value) : Exc (option spec_float) :=
  if is_None value then Return None
  else
    try_except
      (do float_val <- py_float value;
       if pd_isna (SFloat float_val)
          || SFeqb float_val inf || SFeqb float_val neg_inf
       then Return None
       else Return (Some float_val))
      catches_ValueError_TypeError
      (fun _ => Return None).

(** *** The provider ([yfinance]) as the tools see it *)

(** An index label of a DataFrame.  A timestamp is represented by what
    [strftime("%Y-%m-%d")] renders for it; an integer label has no
    [strftime] attribute. *)
Inductive IndexLabel :=
| Timestamp (ymd : string)
| NaT
| IntLabel (i : Z).

(** [date.strftime("%Y-%m-%d")] *)
Definition strftime_ymd (date : IndexLabel) : Exc string :=
  match date with
  | Timestamp ymd => Return ymd
  | NaT => Raise (mk_exn ValueError "NaTType does not support strftime")
  | IntLabel _ =>
      Raise (mk_exn AttributeError "'int' object has no attribute 'strftime'")
  end.

(** A DataFrame: column names, and per row its label and its cells in
    column order. *)
Record DataFrame := mk_frame {
  columns : list string;
  rows : list (IndexLabel * list Scalar)
}.

(** [df.empty] *)
Definition df_empty (df : DataFrame) : bool :=
  Nat.eqb (length (rows df)) 0 || Nat.eqb (length (columns df)) 0.

Fixpoint series_lookup (col : string) (cols : list string) (cells : list Scalar)
    : option Scalar :=
  match cols, cells with
  | c :: cs, x :: xs =>
      if String.eqb c col then Some x else series_lookup col cs xs
  | _, _ => None
  end.

(** [row[col]] *)
Definition series_getitem (col : string) (cols : list string)
    (cells : list Scalar) : Exc Scalar :=
  match series_lookup col cols cells with
  | Some x => Return x
  | None => Raise (mk_exn KeyError ("'" +:+ col +:+ "'"))
  end.

(** [row.get(col, dflt)] *)
Definition series_get (col : string) (dflt : Scalar) (cols : list string)
    (cells : list Scalar) : Scalar :=
  default dflt (series_lookup col cols cells).

(** The keyword arguments of [Ticker.history]. *)
Inductive HistoryArgs :=
| StartEnd (start_date end_date : string)
| Period (period : string).

(** A [yf.Ticker] object: what each attribute the tools read evaluates
    to. *)
Record Ticker := mk_ticker {
  info : Exc (option Dict);
  history : HistoryArgs -> Exc DataFrame;
  earnings_dates : Exc (option DataFrame);
  recommendations : Exc (option DataFrame)
}.

(** [yf.Ticker] *)
Definition Provider := string -> Exc Ticker.

(** *** Helpers shared by the tools *)

Definition of_option (r : option spec_float) : Value :=
  match r with
  | Some f => Float f
  | None => None_
  end.

Definition safe_float_value (value : Value) : Exc Value :=
  do r <- safe_float value; Return (of_option r).

(** A dict display [{k1: e1, k2: e2, ...}]: the values are evaluated in
    order and the first exception aborts the display. *)
Fixpoint dict_display (entries : list (string * Exc Value)) : Exc Dict :=
  match entries with
  | [] => Return []
  | (k, c) :: rest =>
      do v <- c;
      do d <- dict_display rest;
      Return ((k, v) :: d)
  end.

(** [{k: v for k, v in result.items() if v is not None}] *)
Definition drop_None (result : Dict) : Dict :=
  List.filter (fun kv => negb (is_None (snd kv))) result.

Fixpoint for_each {A B} (body : A -> Exc B) (l : list A) : Exc (list B) :=
  match l with
  | [] => Return []
  | x :: rest =>
      do y <- body x;
      do ys <- for_each body rest;
      Return (y :: ys)
  end.

(** An optional string argument is true when given and not empty. *)
Definition given (s : option string) : bool :=
  match s with
  | Some v => negb (String.eqb v EmptyString)
  | None => false
  end.

(** *** [get_stock_price] *)

Definition get_stock_price (yf : Provider) (ticker : string) : Dict :=
  try_except_Exception
    (do stock <- yf ticker;
     do info <- info stock;
     match info with
     | None | Some [] =>
         Return
           [("ticker", Str (upper ticker));
            ("error", Str "No data available for this ticker. Please verify the ticker symbol is correct.")]
     | Some info =>
         let get k := dict_get k info in
         do result <- dict_display
           [("ticker", Return (Str (upper ticker)));
            ("currentPrice",
               safe_float_value (py_or (get "currentPrice") (get "regularMarketPrice")));
            ("previousClose", safe_float_value (get "previousClose"));
            ("open", safe_float_value (py_or (get "regularMarketOpen") (get "open")));
            ("dayHigh", safe_float_value (get "dayHigh"));
            ("dayLow", safe_float_value (get "dayLow"));
            ("volume", safe_float_value (get "volume"));
            ("marketCap", safe_float_value (get "marketCap"));
            ("fiftyTwoWeekHigh", safe_float_value (get "fiftyTwoWeekHigh"));
            ("fiftyTwoWeekLow", safe_float_value (get "fiftyTwoWeekLow"));
            ("currency", Return (dict_get_default "currency" (Str "USD") info));
            ("exchange", Return (get "exchange"));
            ("longName", Return (py_or (get "longName") (get "shortName")))];
         let result := drop_None result in
         if (length result <=? 1)%nat then
           Return
             [("ticker", Str (upper ticker));
              ("error", Str "No valid price data available for this ticker")]
         else Return result
     end)
    (fun e =>
       [("ticker", Str (upper ticker));
        ("error", Str ("Failed to fetch stock price: " +:+ exc_str e))]).

(** *** [get_historical_data] *)

Definition ohlcv : list string := ["Open"; "High"; "Low"; "Close"; "Volume"].

(** The guard [pd.notna(row['Open']) and ... and pd.notna(row['Volume'])],
    left to right, stopping at the first missing value. *)
Fixpoint all_notna (names cols : list string) (cells : list Scalar) : Exc bool :=
  match names with
  | [] => Return true
  | name :: more =>
      do x <- series_getitem name cols cells;
      if pd_notna x then all_notna more cols cells else Return false
  end.

Definition rounded_price (name : string) (cols : list string)
    (cells : list Scalar) : Exc Value :=
  do x <- series_getitem name cols cells;
  do f <- py_float (Atom x);
  Return (Float (py_round2 f)).

(** The dict appended to [hist_data] for one row. *)
Definition data_point (date : IndexLabel) (cols : list string)
    (cells : list Scalar) : Exc Value :=
  do d <- dict_display
    [("date", do s <- strftime_ymd date; Return (Str s));
     ("open", rounded_price "Open" cols cells);
     ("high", rounded_price "High" cols cells);
     ("low", rounded_price "Low" cols cells);
     ("close", rounded_price "Close" cols cells);
     ("volume",
        do x <- series_getitem "Volume" cols cells;
        do n <- py_int x;
        Return (Int n))];
  Return (VDict d).

(** [for date, row in hist.iterrows(): ...], returning [hist_data]. *)
Fixpoint hist_loop (cols : list string) (rows : list (IndexLabel * list Scalar))
    : Exc (list Value) :=
  match rows with
  | [] => Return []
  | (date, cells) :: rest =>
      do keep <- all_notna ohlcv cols cells;
      do appended <-
        (if keep then
           try_except
             (do p <- data_point date cols cells; Return (Some p))
             catches_ValueError_TypeError
             (fun _ => Return None)
         else Return None);
      do hist_data <- hist_loop cols rest;
      Return (match appended with
              | Some p => p :: hist_data
              | None => hist_data
              end)
  end.

Definition get_historical_data (yf : Provider) (ticker period : string)
    (start_date end_date : option string) : Dict :=
  try_except_Exception
    (do stock <- yf ticker;
     let by_dates := given start_date && given end_date in
     let start_s := default EmptyString start_date in
     let end_s := default EmptyString end_date in
     do hist <-
       (if by_dates then history stock (StartEnd start_s end_s)
        else history stock (Period period));
     let period_used :=
       if by_dates then start_s +:+ " to " +:+ end_s else period in
     if df_empty hist then
       Return
         [("ticker", Str (upper ticker));
          ("error", Str "No historical data available for the specified period")]
     else
       do hist_data <- hist_loop (columns hist) (rows hist);
       match hist_data with
       | [] =>
           Return
             [("ticker", Str (upper ticker));
              ("error", Str "No valid historical data points found (all values were NaN or invalid)")]
       | _ =>
           Return
             [("ticker", Str (upper ticker));
              ("period", Str period_used);
              ("dataPoints", Int (Z.of_nat (length hist_data)));
              ("data", VList hist_data)]
       end)
    (fun e =>
       [("ticker", Str (upper ticker));
        ("error", Str ("Failed to fetch historical data: " +:+ exc_str e))]).

(** *** [get_financial_info] *)

(** [info.get(key)] where [info] may be [None]. *)
Definition info_get (key : string) (info : option Dict) : Exc Value :=
  match info with
  | Some d => Return (dict_get key d)
  | None =>
      Raise (mk_exn AttributeError "'NoneType' object has no attribute 'get'")
  end.

Definition info_float (key : string) (info : option Dict) : Exc Value :=
  do v <- info_get key info; safe_float_value v.

Definition get_financial_info (yf : Provider) (ticker : string) : Dict :=
  try_except_Exception
    (do stock <- yf ticker;
     do info <- info stock;
     do result <- dict_display
       [("ticker", Return (Str (upper ticker)));
        ("companyName",
           do a <- info_get "longName" info;
           if truthy a then Return a else info_get "shortName" info);
        ("sector", info_get "sector" info);
        ("industry", info_get "industry" info);
        ("website", info_get "website" info);
        ("description", info_get "longBusinessSummary" info);
        ("country", info_get "country" info);
        ("employees", info_get "fullTimeEmployees" info);
        ("marketCap", info_float "marketCap" info);
        ("trailingPE", info_float "trailingPE" info);
        ("forwardPE", info_float "forwardPE" info);
        ("priceToBook", info_float "priceToBook" info);
        ("earningsPerShare", info_float "trailingEps" info);
        ("revenuePerShare", info_float "revenuePerShare" info);
        ("profitMargins", info_float "profitMargins" info);
        ("operatingMargins", info_float "operatingMargins" info);
        ("totalRevenue", info_float "totalRevenue" info);
        ("revenueGrowth", info_float "revenueGrowth" info);
        ("earningsGrowth", info_float "earningsGrowth" info);
        ("targetMeanPrice", info_float "targetMeanPrice" info);
        ("targetHighPrice", info_float "targetHighPrice" info);
        ("targetLowPrice", info_float "targetLowPrice" info);
        ("recommendationKey", info_get "recommendationKey" info);
        ("numberOfAnalystOpinions", info_float "numberOfAnalystOpinions" info);
        ("dividendRate", info_float "dividendRate" info);
        ("dividendYield", info_float "dividendYield" info);
        ("payoutRatio", info_float "payoutRatio" info);
        ("exDividendDate", info_get "exDividendDate" info);
        ("beta", info_float "beta" info);
        ("averageVolume", info_float "averageVolume" info);
        ("averageVolume10days", info_float "averageVolume10days" info)];
     Return (drop_None result))
    (fun e =>
       [("ticker", Str (upper ticker));
        ("error", Str ("Failed to fetch financial info: " +:+ exc_str e))]).

(** *** [get_earnings_dates] *)

(** [float(row.get(col, 0)) if pd.notna(row.get(col)) else None] *)
Definition optional_float (col : string) (cols : list string)
    (cells : list Scalar) : Exc Value :=
  if pd_notna (series_get col SNone cols cells) then
    do f <- py_float (Atom (series_get col (SInt 0) cols cells));
    Return (Float f)
  else Return None_.

Definition earnings_item (row : IndexLabel * list Scalar) (cols : list string)
    : Exc Value :=
  let '(date, cells) := row in
  do d <- dict_display
    [("date", do s <- strftime_ymd date; Return (Str s));
     ("epsEstimate", optional_float "EPS Estimate" cols cells);
     ("reportedEPS", optional_float "Reported EPS" cols cells);
     ("surprise", optional_float "Surprise(%)" cols cells)];
  Return (VDict d).

(** [item['date']] of an element of [earnings_list], as a string. *)
Definition item_date (item : Value) : Exc string :=
  match item with
  | VDict d =>
      match dict_lookup "date" d with
      | Some (Atom (SStr s)) => Return s
      | Some _ =>
          Raise (mk_exn TypeError "strptime() argument 1 must be str")
      | None => Raise (mk_exn KeyError "'date'")
      end
  | _ => Raise (mk_exn TypeError "list indices must be integers or slices, not str")
  end.

(** The search for the first item dated today or later; [None] when the
    loop runs off the end. *)
Fixpoint find_upcoming (today : Z) (earnings_list : list Value) : Exc Value :=
  match earnings_list with
  | [] => Return None_
  | item :: rest =>
      do s <- item_date item;
      do item_date <- strptime_ymd s;
      if today <=? item_date then Return (Str s)
      else find_upcoming today rest
  end.

(** [now] is the value of [datetime.now()] during the call. *)
Definition get_earnings_dates (yf : Provider) (now : Z) (ticker : string) : Dict :=
  try_except_Exception
    (do stock <- yf ticker;
     do earnings_dates <- earnings_dates stock;
     let no_dates :=
       [("ticker", Str (upper ticker));
        ("message", Str "No earnings dates available")] in
     match earnings_dates with
     | None => Return no_dates
     | Some df =>
         if df_empty df then Return no_dates
         else
           do earnings_list <-
             for_each (fun row => earnings_item row (columns df)) (rows df);
           do upcoming <- find_upcoming now earnings_list;
           Return
             [("ticker", Str (upper ticker));
              ("upcomingEarningsDate", upcoming);
              ("data", VList (firstn 10 earnings_list))]
     end)
    (fun e =>
       [("ticker", Str (upper ticker));
        ("error", Str ("Failed to fetch earnings dates: " +:+ exc_str e))]).

(** *** [get_analyst_recommendations] *)

(** [df.tail(n)] *)
Definition tail (n : nat) (df : DataFrame) : DataFrame :=
  mk_frame (columns df) (skipn (length (rows df) - n) (rows df)).

(** [str(row.get(col, ''))] *)
Definition cell_str (col : string) (cols : list string) (cells : list Scalar)
    : Value :=
  Str (str_of (series_get col (SStr EmptyString) cols cells)).

(** [str(row.get(col, '')) if pd.notna(row.get(col)) else None] *)
Definition optional_str (col : string) (cols : list string)
    (cells : list Scalar) : Value :=
  if pd_notna (series_get col SNone cols cells) then cell_str col cols cells
  else None_.

(** One element of [recs_list].  The date is
    [date.strftime("%Y-%m-%d") if hasattr(date, 'strftime') else str(date)]. *)
Definition recommendation_item (row : IndexLabel * list Scalar)
    (cols : list string) : Exc Value :=
  let '(date, cells) := row in
  do d <- dict_display
    [("date",
        match date with
        | IntLabel i => Return (Str (str_of (SInt i)))
        | _ => do s <- strftime_ymd date; Return (Str s)
        end);
     ("firm", Return (cell_str "Firm" cols cells));
     ("toGrade", Return (cell_str "To Grade" cols cells));
     ("fromGrade", Return (optional_str "From Grade" cols cells));
     ("action", Return (optional_str "Action" cols cells))];
  Return (VDict d).

Definition get_analyst_recommendations (yf : Provider) (ticker : string)
    : Dict :=
  try_except_Exception
    (do stock <- yf ticker;
     do recommendations <- recommendations stock;
     let from_info :=
       do info <- info stock;
       do recommendation_key <- info_get "recommendationKey" info;
       if truthy recommendation_key then
         Return
           [("ticker", Str (upper ticker));
            ("currentRecommendation", recommendation_key);
            ("message", Str "Detailed recommendations history not available")]
       else
         Return
           [("ticker", Str (upper ticker));
            ("message", Str "No analyst recommendations available")] in
     match recommendations with
     | None => from_info
     | Some df =>
         if df_empty df then from_info
         else
           let recent := tail 20 df in
           do recs_list <-
             for_each (fun row => recommendation_item row (columns recent))
                      (rows recent);
           Return
             [("ticker", Str (upper ticker));
              ("totalRecommendations", Int (Z.of_nat (length recs_list)));
              ("data", VList recs_list)]
     end)
    (fun e =>
       [("ticker", Str (upper ticker));
        ("error",
           Str ("Failed to fetch analyst recommendations: " +:+ exc_str e))]).

End WithRuntime.

End Tools.

(** ** The stage contract of the trading-strategy stage *)

Module Stages.
Import Bridge Tools.

(** Modelled from the spec: the Stage record, the State Store and
    [run_stage] of the design document (sections 3 and 4.2).  The sources
    hold the prerequisite check of the trading analyst only as the text of
    its prompt ([sub_agents/trading_analyst/prompt.py]); the stage
    definitions and the runtime that executes them are not among the
    sources. *)
Record Stage := mk_stage {
  name : string;
  required_keys : list string;
  produces_key : string;
  halt_message : string -> string
}.

(** Modelled from the spec: the reasoning engine of a stage, given the
    resolved values of the required keys; it reports its events and, on
    success, the stage output. *)
Record EngineReply := mk_reply {
  reply_events : list Event;
  output : option Value
}.

Definition Engine := string -> list (string * Value) -> EngineReply.

(** Modelled from the spec: the outcome of [run_stage]: the events
    produced, the store afterwards, and how often the reasoning engine was
    invoked. *)
Record StageResult := mk_result {
  events : list Event;
  store : gmap string Value;
  engine_calls : nat
}.

(** Modelled from the spec: the first required key the store lacks. *)
Fixpoint first_missing (keys : list string) (st : gmap string Value)
    : option string :=
  match keys with
  | [] => None
  | k :: rest =>
      match st !! k with
      | None => Some k
      | Some _ => first_missing rest st
      end
  end.

(** Modelled from the spec: the values of the required keys, handed to the
    engine as context. *)
Definition resolve (keys : list string) (st : gmap string Value)
    : list (string * Value) :=
  omap (fun k => match st !! k with
                 | Some v => Some (k, v)
                 | None => None
                 end) keys.

(** Modelled from the spec: a key, once written, keeps its value. *)
Definition write_once (k : string) (v : Value) (st : gmap string Value)
    : gmap string Value :=
  match st !! k with
  | None => <[k := v]> st
  | Some _ => st
  end.

(** Modelled from the spec: [run_stage(stage, store)] of section 4.2: the
    check [required_keys ⊆ keys(store)] comes first; a missing key halts
    with a single run-error event and nothing else happens. *)
Definition run_stage (stage : Stage) (engine : Engine) (st : gmap string Value)
    : StageResult :=
  match first_missing (required_keys stage) st with
  | Some missing =>
      mk_result [RunErrorEvent (halt_message stage missing) "MISSING_DEPENDENCY"]
                st 0
  | None =>
      let reply := engine (name stage) (resolve (required_keys stage) st) in
      match output reply with
      | Some v =>
          mk_result (reply_events reply) (write_once (produces_key stage) v st) 1
      | None => mk_result (reply_events reply) st 1
      end
  end.

(** The halt text of the trading analyst, as its prompt words it, with the
    missing key filled in. *)
Definition trading_analyst_halt (missing_key : string) : string :=
  "Error: The foundational market analysis data (from " +:+ missing_key
  +:+ ") is missing or incomplete. This data is essential for generating trading strategies. Please ensure the 'Market Data Analysis' step, typically handled by the data_analyst agent, has been successfully run before proceeding. You may need to execute that step first.".

(** Modelled from the spec: Stage 2 requires Stage 1's key and produces
    [proposed_trading_strategies_output]. *)
Definition trading_analyst : Stage :=
  mk_stage "trading_analyst"
           ["market_data_analysis_output"]
           "proposed_trading_strategies_output"
           trading_analyst_halt.

End Stages.

(** ** What the session manager keeps true *)

Module Registry.
Import Sessions.

(** The state of a manager that has only ever been changed by
    [get_agent]: as many agents were constructed as are stored; each
    stored agent is the one [create_agent] builds for its key, with an
    identity handed out earlier; no two keys share an identity. *)
Definition well_formed (sm : SessionManager) : Prop :=
  constructed sm = size (sessions sm)
  /\ (forall s a, sessions sm !! s = Some a ->
        a = create_agent s (object_id a)
        /\ (object_id a < constructed sm)%nat)
  /\ (forall s t a b,
        sessions sm !! s = Some a -> sessions sm !! t = Some b ->
        object_id a = object_id b -> s = t).

(** A task that has run [handle_request] holds the agent the manager
    stores for its thread. *)
Definition served_from_registry (sm : SessionManager) (t : Task) : Prop :=
  match t with
  | Accepted _ _ => True
  | Streaming h _ | Finished h => sessions sm !! thread_id h = Some (agent h)
  end.

Definition loop_invariant (l : Loop) : Prop :=
  well_formed (manager l)
  /\ Forall (served_from_registry (manager l)) (tasks l).

End Registry.

(** * Sample inputs *)

(** The design document's scenario: five events, the third cannot be
    encoded. *)
Definition five_events : list Bridge.Event :=
  [Bridge.TextMessageContentEvent "m1" "Analyzing NVDA";
   Bridge.ToolCallStartEvent "t1" "get_stock_price";
   Bridge.TextMessageContentEvent "m1" EmptyString;
   Bridge.TextMessageContentEvent "m1" "Done";
   Bridge.RunFinishedEvent "thread-1" "run-1"].

(** Three requests for the same new thread, interleaved while they
    stream. *)
Definition three_requests : list Sessions.Task :=
  [Sessions.Accepted [("x-thread-id", "thread-9")] 2;
   Sessions.Accepted [("accept", "text/event-stream"); ("x-thread-id", "thread-9")] 0;
   Sessions.Accepted [("x-thread-id", "thread-9"); ("x-thread-id", "other")] 1].

(** An engine that would answer if asked, and a store that holds only the
    user's preferences. *)
Definition eager_engine : Stages.Engine :=
  fun _ _ => Stages.mk_reply [Bridge.RunFinishedEvent "t" "r"]
                             (Some (Tools.Str "five strategies")).

Definition preferences_only : gmap string Tools.Value :=
  {["user_risk_attitude" := Tools.Str "moderate"]}.

(** Sample floats: the binary64 values nearest to the decimals. *)
Definition f3_14 : spec_float :=
  Eval vm_compute in
    SFdiv Tools.prec Tools.emax (S754_finite false 314 0) (S754_finite false 100 0).
Definition f185_5 : spec_float :=
  Eval vm_compute in
    SFdiv Tools.prec Tools.emax (S754_finite false 1855 0) (S754_finite false 10 0).
Definition f52300000 : spec_float :=
  Eval vm_compute in binary_normalize Tools.prec Tools.emax 52300000 0 false.

(** A provider whose history is the given frame. *)
Definition history_only (df : Tools.DataFrame) : Tools.Provider :=
  fun _ =>
    Return (Tools.mk_ticker (Return None) (fun _ => Return df)
                            (Return None) (Return None)).

(** A provider whose [info] is the given dict. *)
Definition info_only (d : Tools.Dict) : Tools.Provider :=
  fun _ =>
    Return (Tools.mk_ticker (Return (Some d))
              (fun _ => Return (Tools.mk_frame [] []))
              (Return None) (Return None)).

Definition quote_row (ymd : string) (open_ volume : spec_float)
    : Tools.IndexLabel * list Tools.Scalar :=
  (Tools.Timestamp ymd,
   [Tools.SFloat open_; Tools.SFloat f185_5; Tools.SFloat f185_5;
    Tools.SFloat f185_5; Tools.SFloat volume]).

Definition frame_with_infinite_open : Tools.DataFrame :=
  Tools.mk_frame Tools.ohlcv [quote_row "2024-01-15" Tools.inf f52300000].

Definition frame_with_infinite_volume : Tools.DataFrame :=
  Tools.mk_frame Tools.ohlcv
    [quote_row "2024-01-15" f185_5 f52300000;
     quote_row "2024-01-16" f185_5 Tools.inf].

Definition frame_half_nan : Tools.DataFrame :=
  Tools.mk_frame Tools.ohlcv
    [quote_row "2024-01-15" f185_5 f52300000;
     quote_row "2024-01-16" Tools.nan f52300000].

(** Requests of two different threads. *)
Definition mixed_requests : list Sessions.Task :=
  [Sessions.Accepted [("x-thread-id", "alice")] 1;
   Sessions.Accepted [("x-thread-id", "bob")] 0;
   Sessions.Accepted [("x-thread-id", "alice")] 2].

(** ** A runtime to run the tools with

    The theorems below hold for every runtime.  This one serves the worked
    examples: it converts plain decimal integer literals, reads dates
    written as four, two and two digits, and prints a float that is not a
    whole number by its exact decimal expansion, where Python prints the
    shortest decimal that reads back. *)

Module Sample.
Import Tools.

Definition digit_of (c : ascii) : option Z :=
  let n := nat_of_ascii c in
  if ((48 <=? n) && (n <=? 57))%nat then Some (Z.of_nat (n - 48)) else None.

Fixpoint digits_value (acc : Z) (s : string) : option Z :=
  match s with
  | EmptyString => Some acc
  | String c rest =>
      match digit_of c with
      | Some d => digits_value (10 * acc + d) rest
      | None => None
      end
  end.

(** A non-empty run of decimal digits, with an optional minus sign. *)
Definition integer_literal (s : string) : option Z :=
  match s with
  | EmptyString => None
  | String "-" EmptyString => None
  | String "-" digits => Z.opp <$> digits_value 0 digits
  | _ => digits_value 0 s
  end.

Definition leap (y : Z) : bool :=
  ((y mod 4 =? 0) && negb (y mod 100 =? 0)) || (y mod 400 =? 0).

Definition days_in_month (y m : Z) : Z :=
  if m =? 2 then (if leap y then 29 else 28)
  else if (m =? 4) || (m =? 6) || (m =? 9) || (m =? 11) then 30
  else 31.

(** Days from 1970-01-01 to the given civil date. *)
Definition days_from_civil (y m d : Z) : Z :=
  let y1 := if m <=? 2 then y - 1 else y in
  let era := y1 / 400 in
  let yoe := y1 - era * 400 in
  let mp := if 2 <? m then m - 3 else m + 9 in
  let doy := (153 * mp + 2) / 5 + d - 1 in
  let doe := yoe * 365 + yoe / 4 - yoe / 100 + doy in
  era * 146097 + doe - 719468.

(** A date written [YYYY-MM-DD], as seconds since 1970-01-01 00:00. *)
Definition parse_ymd (s : string) : option Z :=
  if negb (Nat.eqb (String.length s) 10) then None
  else if negb (String.eqb (substring 4 1 s) "-"
                && String.eqb (substring 7 1 s) "-") then None
  else
    y ← digits_value 0 (substring 0 4 s);
    m ← digits_value 0 (substring 5 2 s);
    d ← digits_value 0 (substring 8 2 s);
    if (1 <=? y) && (1 <=? m) && (m <=? 12)
       && (1 <=? d) && (d <=? days_in_month y m)
    then Some (days_from_civil y m d * 86400)
    else None.

Fixpoint zeros (n : nat) : string :=
  match n with
  | O => EmptyString
  | S k => String "0" (zeros k)
  end.

(** Drop the zeros at the end of a run of fraction digits. *)
Fixpoint strip_zeros (s : string) : string :=
  match s with
  | EmptyString => EmptyString
  | String c rest =>
      match strip_zeros rest with
      | EmptyString => if Ascii.eqb c "0" then EmptyString else String c EmptyString
      | kept => String c kept
      end
  end.

(** The exact decimal expansion of [m / 2^k]. *)
Definition decimal_expansion (m : Z) (k : Z) : string :=
  let whole := m / 2 ^ k in
  let digits := pretty ((m mod 2 ^ k) * 5 ^ k) in
  let padded := zeros (Z.to_nat k - String.length digits) +:+ digits in
  match strip_zeros padded with
  | EmptyString => pretty whole +:+ ".0"
  | fraction => pretty whole +:+ "." +:+ fraction
  end.

Definition str_of_float (f : spec_float) : string :=
  match f with
  | S754_nan => "nan"
  | S754_infinity false => "inf"
  | S754_infinity true => "-inf"
  | S754_zero false => "0.0"
  | S754_zero true => "-0.0"
  | S754_finite s m e =>
      (if s then "-" else EmptyString)
      +:+ (if 0 <=? e then pretty (Zpos m * 2 ^ e) +:+ ".0"
           else decimal_expansion (Zpos m) (- e))
  end.

Definition runtime : PyRuntime := {|
  float_of_str s :=
    match integer_literal s with
    | Some z => Return (binary_normalize prec emax z 0 false)
    | None =>
        Raise (mk_exn ValueError
                 ("could not convert string to float: '" +:+ s +:+ "'"))
    end;
  int_of_str s :=
    match integer_literal s with
    | Some z => Return z
    | None =>
        Raise (mk_exn ValueError
                 ("invalid literal for int() with base 10: '" +:+ s +:+ "'"))
    end;
  str_of x :=
    match x with
    | SNone => "None"
    | SBool true => "True"
    | SBool false => "False"
    | SInt z => pretty z
    | SFloat f => str_of_float f
    | SStr s => s
    end;
  strptime_ymd s :=
    match parse_ymd s with
    | Some t => Return t
    | None =>
        Raise (mk_exn ValueError
                 ("time data '" +:+ s +:+ "' does not match format '%Y-%m-%d'"))
    end
|}.

End Sample.

(** ** Field names and sample provider data *)

(** The fields of a [get_stock_price] record that pass through
    [safe_float]. *)
Definition stock_price_numeric_fields : list string :=
  ["currentPrice"; "previousClose"; "open"; "dayHigh"; "dayLow"; "volume";
   "marketCap"; "fiftyTwoWeekHigh"; "fiftyTwoWeekLow"].

(** The fields of a [get_financial_info] record that pass through
    [safe_float]. *)
Definition financial_numeric_fields : list string :=
  ["marketCap"; "trailingPE"; "forwardPE"; "priceToBook"; "earningsPerShare";
   "revenuePerShare"; "profitMargins"; "operatingMargins"; "totalRevenue";
   "revenueGrowth"; "earningsGrowth"; "targetMeanPrice"; "targetHighPrice";
   "targetLowPrice"; "numberOfAnalystOpinions"; "dividendRate";
   "dividendYield"; "payoutRatio"; "beta"; "averageVolume";
   "averageVolume10days"].

(** A provider that fails as soon as the ticker object is built. *)
Definition unreachable_provider : Tools.Provider :=
  fun _ => Raise (mk_exn RuntimeError "network down").

(** A quote whose previous close is NaN and whose market cap is an
    integer. *)
Definition sample_info : Tools.Dict :=
  [("currentPrice", Tools.Float f185_5);
   ("previousClose", Tools.Float Tools.nan);
   ("marketCap", Tools.Int 2900000000000);
   ("longName", Tools.Str "Apple Inc.")].

(** A provider whose earnings calendar is the given frame. *)
Definition earnings_only (df : Tools.DataFrame) : Tools.Provider :=
  fun _ =>
    Return (Tools.mk_ticker (Return None)
              (fun _ => Return (Tools.mk_frame [] []))
              (Return (Some df)) (Return None)).

(** A provider whose rating history is the given frame. *)
Definition recommendations_only (df : Tools.DataFrame) : Tools.Provider :=
  fun _ =>
    Return (Tools.mk_ticker (Return None)
              (fun _ => Return (Tools.mk_frame [] []))
              (Return None) (Return (Some df))).

(** An earnings calendar, newest first: one date ahead of mid-September
    2024 and one behind it. *)
Definition earnings_frame : Tools.DataFrame :=
  Tools.mk_frame ["EPS Estimate"; "Reported EPS"; "Surprise(%)"]
    [(Tools.Timestamp "2024-08-01",
      [Tools.SFloat f3_14; Tools.SFloat f3_14; Tools.SFloat Tools.nan]);
     (Tools.Timestamp "2024-10-31",
      [Tools.SFloat f3_14; Tools.SFloat Tools.nan; Tools.SFloat Tools.nan])].

(** Noon on 2024-09-15, in seconds. *)
Definition mid_september : Z := 1726401600.

Definition ratings_frame : Tools.DataFrame :=
  Tools.mk_frame ["Firm"; "To Grade"; "From Grade"; "Action"]
    [(Tools.Timestamp "2024-01-15",
      [Tools.SStr "Morgan Stanley"; Tools.SStr "Buy"; Tools.SStr "Hold";
       Tools.SStr "up"]);
     (Tools.Timestamp "2024-02-01",
      [Tools.SStr "Barclays"; Tools.SStr "Hold"; Tools.SNone;
       Tools.SStr "init"])].

(** The market cap of [sample_info] as a float. *)
Definition f_market_cap : spec_float :=
  Eval vm_compute in binary_normalize Tools.prec Tools.emax 2900000000000 0 false.

(** Items of an earnings list, as far as the search for the upcoming
    date reads them. *)
Definition earnings_items : list Tools.Value :=
  [Tools.VDict [("date", Tools.Str "2024-08-01")];
   Tools.VDict [("date", Tools.Str "2024-10-31")];
   Tools.VDict [("date", Tools.Str "2025-01-30")]].

(** The [data] list of a record, or the empty list. *)
Definition data_of (r : Tools.Dict) : list Tools.Value :=
  match Tools.dict_lookup "data" r with
  | Some (Tools.VList l) => l
  | _ => []
  end.

Definition sample_earnings_data : list Tools.Value :=
  Eval vm_compute in
    data_of (@Tools.get_earnings_dates Sample.runtime
               (earnings_only earnings_frame) mid_september "aapl").

Definition sample_ratings_data : list Tools.Value :=
  Eval vm_compute in
    data_of (@Tools.get_analyst_recommendations Sample.runtime
               (recommendations_only ratings_frame) "aapl").

Definition sample_points : list Tools.Value :=
  Eval vm_compute in
    data_of (@Tools.get_historical_data Sample.runtime
               (history_only frame_half_nan) "aapl" "1mo" None None).

(** A quote whose current price is zero while the regular market price
    is known, and that names no currency. *)
Definition zero_price_info : Tools.Dict :=
  [("currentPrice", Tools.Float (S754_zero false));
   ("regularMarketPrice", Tools.Float f185_5);
   ("shortName", Tools.Str "Apple")].

(** * Properties *)

(** ** The event stream bridge *)

Section BridgeProperties.
Import Bridge.
Variable encode : Event -> Exc string.

Lemma append_empty_r (s : string) : s +:+ EmptyString = s.
Proof.
  induction s as [|c s IH]; [reflexivity|].
  change (String c (s +:+ EmptyString) = String c s). now rewrite IH.
Qed.

Lemma contains_suffix (prefix s : string) : contains (prefix +:+ s) s.
Proof. exists prefix, EmptyString. now rewrite append_empty_r. Qed.

(** While every event encodes, the loop yields one encoded chunk per event
    and carries on with the rest of the source. *)
Lemma async_for_encoded_prefix (pre : list Event) (chunks : list string)
    (rest : list Event) (e : Ending) :
  Forall2 (fun ev c => encode ev = Return c) pre chunks ->
  yielded (async_for encode (pre ++ rest) e)
    = map (mk_chunk YieldEncoded) chunks ++ yielded (async_for encode rest e)
  /\ unconsumed (async_for encode (pre ++ rest) e)
    = unconsumed (async_for encode rest e).
Proof.
  induction 1 as [|ev c pre chunks Hev _ IH]; simpl.
  - split; reflexivity.
  - rewrite Hev. simpl. destruct IH as [-> ->]. split; reflexivity.
Qed.

Lemma on_encoding_error_is_error (err : exn) :
  is_error_chunk (on_encoding_error encode err) = true.
Proof. unfold on_encoding_error. destruct (encode _); reflexivity. Qed.

Lemma on_agent_error_is_error (err : exn) :
  is_error_chunk (on_agent_error encode err) = true.
Proof. unfold on_agent_error. destruct (encode _); reflexivity. Qed.

#[local] Abbreviation encoding_report encoding_error :=
  (match encode (RunErrorEvent
                   ("Event encoding failed: " +:+ exc_str encoding_error)
                   "ENCODING_ERROR") with
   | Return error_encoded => error_encoded
   | Raise _ => encoding_fallback_literal
   end).

#[local] Abbreviation agent_report agent_error :=
  (match encode (RunErrorEvent
                   ("Agent execution failed: " +:+ exc_str agent_error)
                   "AGENT_ERROR") with
   | Return error_encoded => error_encoded
   | Raise _ => agent_fallback_literal
   end).

(** What the text of a handler chunk is: the report of an event of the
    source that failed to encode, or, when all events encode, the report
    of the exception the source raised. *)
#[local] Abbreviation reports evs e report :=
  ((exists ev encoding_error,
       In ev evs /\ encode ev = Raise encoding_error
       /\ report = encoding_report encoding_error)
   \/ (exists agent_error,
         e = Raised agent_error
         /\ Forall (fun ev => exists s, encode ev = Return s) evs
         /\ report = agent_report agent_error)).

Lemma on_encoding_error_text (err : exn) :
  text (on_encoding_error encode err) = encoding_report err.
Proof.
  unfold on_encoding_error. destruct (encode (RunErrorEvent _ _)); reflexivity.
Qed.

Lemma on_agent_error_text (err : exn) :
  text (on_agent_error encode err) = agent_report err.
Proof.
  unfold on_agent_error. destruct (encode (RunErrorEvent _ _)); reflexivity.
Qed.

(** The shape of every run: the encodings of the leading events, then
    nothing when the execution does not fail, or one handler chunk whose
    text is the report of the failure. *)
Lemma async_for_shape (evs : list Event) (e : Ending) :
  exists chunks,
    Forall2 (fun ev s => encode ev = Return s)
            (firstn (length chunks) evs) chunks
    /\ ((yielded (async_for encode evs e) = map (mk_chunk YieldEncoded) chunks
         /\ ~ failing encode (mk_source evs e))
        \/ (exists c, yielded (async_for encode evs e)
                        = map (mk_chunk YieldEncoded) chunks ++ [c]
                      /\ is_error_chunk c = true
                      /\ reports evs e (text c))).
Proof.
  induction evs as [|ev evs IH]; simpl.
  - destruct e as [|agent_error].
    + exists []. split; [constructor|]. left. split; [reflexivity|].
      intros [[x Hx]|Hx]; [discriminate | inversion Hx].
    + exists []. split; [constructor|]. right.
      exists (on_agent_error encode agent_error).
      split; [reflexivity|]. split; [apply on_agent_error_is_error|].
      right. exists agent_error.
      split; [reflexivity|]. split; [constructor | apply on_agent_error_text].
  - destruct (encode ev) as [encoded|encoding_error] eqn:Hev.
    + destruct IH as [chunks [Hall [[Hy Hnf]|(c & Hy & Hc & Hrep)]]].
      * exists (encoded :: chunks). split; [constructor; assumption|].
        left. simpl. rewrite Hy. split; [reflexivity|].
        intros [Hend|Hex]; apply Hnf; [left; exact Hend|].
        right. inversion Hex as [? ? [err Herr]|]; subst; [congruence | assumption].
      * exists (encoded :: chunks). split; [constructor; assumption|].
        right. exists c. simpl. rewrite Hy.
        split; [reflexivity|]. split; [exact Hc|].
        destruct Hrep as [(ev0 & err & Hin & Herr & Ht)
                         |(agent_error & He & Hok & Ht)].
        -- left. exists ev0, err. split; [right; exact Hin|]. split; assumption.
        -- right. exists agent_error. split; [exact He|].
           split; [constructor; eauto | exact Ht].
    + exists []. split; [constructor|]. right.
      exists (on_encoding_error encode encoding_error).
      split; [reflexivity|]. split; [apply on_encoding_error_is_error|].
      left. exists ev, encoding_error.
      split; [left; reflexivity|]. split; [exact Hev|].
      apply on_encoding_error_text.
Qed.

Lemma reports_imply_failing (evs : list Event) (e : Ending) (report : string) :
  reports evs e report -> failing encode (mk_source evs e).
Proof.
  intros [(ev & err & Hin & Herr & _)|(agent_error & He & _)].
  - right. simpl. apply List.Exists_exists. exists ev. split; [exact Hin|].
    exists err. exact Herr.
  - left. exists agent_error. exact He.
Qed.

Lemma no_error_among_encoded (chunks : list string) :
  List.filter is_error_chunk (map (mk_chunk YieldEncoded) chunks) = [].
Proof. induction chunks; simpl; auto. Qed.

Lemma encoded_not_error (chunks : list string) (c : Chunk) :
  In c (map (mk_chunk YieldEncoded) chunks) -> is_error_chunk c = false.
Proof. rewrite in_map_iff. intros [s [<- _]]. reflexivity. Qed.

(** C1: if the events before the k-th encode and the k-th does not, the
    stream is the k-1 encoded chunks followed by exactly one chunk -- the
    encoded run-error event with code ENCODING_ERROR whose message ends in
    the failure text, or the fixed literal when that event cannot be
    encoded either -- and the events after the k-th stay in the source. *)
Theorem encoding_failure_ends_stream
    (pre : list Event) (event : Event) (rest : list Event) (e : Ending)
    (chunks : list string) (encoding_error : exn) :
  Forall2 (fun ev c => encode ev = Return c) pre chunks ->
  encode event = Raise encoding_error ->
  let src := mk_source (pre ++ event :: rest) e in
  let message := "Event encoding failed: " +:+ exc_str encoding_error in
  let error_chunk :=
    match encode (RunErrorEvent message "ENCODING_ERROR") with
    | Return error_encoded => error_encoded
    | Raise _ => encoding_fallback_literal
    end in
  contains message (exc_str encoding_error)
  /\ stream encode src = chunks ++ [error_chunk]
  /\ yielded (event_generator encode src)
       = map (mk_chunk YieldEncoded) chunks
         ++ [on_encoding_error encode encoding_error]
  /\ length (stream encode src) = S (length pre)
  /\ unconsumed (event_generator encode src) = rest
  /\ consumed src (event_generator encode src) = S (length pre).
Proof.
  intros Hpre Hev src message error_chunk.
  assert (Hlen : length chunks = length pre).
  { clear -Hpre. induction Hpre; simpl; congruence. }
  destruct (async_for_encoded_prefix pre chunks (event :: rest) e Hpre)
    as [Hy Hu].
  simpl in Hy, Hu. rewrite Hev in Hy, Hu. simpl in Hy, Hu.
  assert (Hs : stream encode src = chunks ++ [error_chunk]).
  { unfold stream, event_generator, src. simpl. rewrite Hy.
    rewrite map_app, map_map. simpl. rewrite map_id. f_equal.
    unfold on_encoding_error, error_chunk, message.
    destruct (encode (RunErrorEvent _ _)); reflexivity. }
  split; [apply contains_suffix|].
  split; [exact Hs|].
  split; [exact Hy|].
  split; [rewrite Hs, length_app; simpl; lia|].
  split; [exact Hu|].
  unfold consumed, event_generator, src. simpl. rewrite Hu.
  rewrite length_app. simpl. lia.
Qed.

(** C2: whatever the source and the encoder do -- an event that cannot be
    encoded, or an exception from the source itself -- at most one error
    chunk is yielded and nothing is yielded after it; the text of an error
    chunk is the report of the failure: the encoded run-error event
    (ENCODING_ERROR or AGENT_ERROR, with the failure text in its message)
    or the matching fixed literal; every failing execution ends with such
    a chunk.  Read as text alone: the stream is the encodings of the
    leading events, followed by one report exactly when the execution
    fails. *)
Theorem at_most_one_error_chunk_and_it_is_last (src : Source) :
  let out := yielded (event_generator encode src) in
  let encoding_report encoding_error :=
    match encode (RunErrorEvent
                    ("Event encoding failed: " +:+ exc_str encoding_error)
                    "ENCODING_ERROR") with
    | Return error_encoded => error_encoded
    | Raise _ => encoding_fallback_literal
    end in
  let agent_report agent_error :=
    match encode (RunErrorEvent
                    ("Agent execution failed: " +:+ exc_str agent_error)
                    "AGENT_ERROR") with
    | Return error_encoded => error_encoded
    | Raise _ => agent_fallback_literal
    end in
  let reports report :=
    (exists ev encoding_error,
        In ev (events src) /\ encode ev = Raise encoding_error
        /\ report = encoding_report encoding_error)
    \/ (exists agent_error,
          ending src = Raised agent_error
          /\ Forall (fun ev => exists s, encode ev = Return s) (events src)
          /\ report = agent_report agent_error) in
  (length (List.filter is_error_chunk out) <= 1)%nat
  /\ (forall before c after,
        out = before ++ c :: after -> is_error_chunk c = true ->
        after = [] /\ reports (text c))
  /\ (failing encode src ->
      exists before c,
        out = before ++ [c] /\ is_error_chunk c = true /\ reports (text c))
  /\ (exists chunks,
        Forall2 (fun ev s => encode ev = Return s)
                (firstn (length chunks) (events src)) chunks
        /\ ((stream encode src = chunks /\ ~ failing encode src)
            \/ (exists report,
                  stream encode src = chunks ++ [report]
                  /\ reports report /\ failing encode src))).
Proof.
  destruct src as [evs e]. unfold stream, event_generator. simpl.
  assert (Htext : forall chunks : list string,
            map text (map (mk_chunk YieldEncoded) chunks) = chunks).
  { intros chunks. rewrite map_map. simpl. apply map_id. }
  destruct (async_for_shape evs e)
    as [chunks [Hall [[Hy Hnf]|(c & Hy & Hc & Hrep)]]]; rewrite Hy.
  - split; [rewrite no_error_among_encoded; simpl; lia|].
    split; [|split; [intros Hf; contradiction|]].
    + intros before c after Heq Hc.
      assert (Hin : In c (map (mk_chunk YieldEncoded) chunks)).
      { rewrite Heq. apply in_or_app. right. left. reflexivity. }
      apply encoded_not_error in Hin. congruence.
    + exists chunks. split; [exact Hall|]. left.
      split; [apply Htext | exact Hnf].
  - split.
    { rewrite List.filter_app, no_error_among_encoded. simpl. rewrite Hc.
      simpl. lia. }
    split; [|split].
    + intros before c' after Heq Hc'.
      destruct after as [|a after] using rev_ind.
      * apply app_inj_tail in Heq as [_ <-]. split; [reflexivity | exact Hrep].
      * exfalso. rewrite app_comm_cons, app_assoc in Heq.
        apply app_inj_tail in Heq. destruct Heq as [Heq _].
        assert (Hin : In c' (map (mk_chunk YieldEncoded) chunks)).
        { rewrite Heq. apply in_or_app. right. left. reflexivity. }
        apply encoded_not_error in Hin. congruence.
    + intros _. exists (map (mk_chunk YieldEncoded) chunks), c. auto.
    + exists chunks. split; [exact Hall|]. right. exists (text c).
      rewrite map_app, Htext. simpl. split; [reflexivity|].
      split; [exact Hrep|]. exact (reports_imply_failing evs e (text c) Hrep).
Qed.

End BridgeProperties.

Lemma third_of_five_fails :
  Bridge.stream Bridge.sse_encode
      (Bridge.mk_source five_events Bridge.StopAsyncIteration)
    = ["data: TEXT_MESSAGE_CONTENT Analyzing NVDA" +:+ Bridge.newline +:+ Bridge.newline;
       "data: TOOL_CALL_START get_stock_price" +:+ Bridge.newline +:+ Bridge.newline;
       "data: RUN_ERROR ENCODING_ERROR Event encoding failed: Delta must not be an empty string"
         +:+ Bridge.newline +:+ Bridge.newline]
  /\ Bridge.unconsumed
       (Bridge.event_generator Bridge.sse_encode
          (Bridge.mk_source five_events Bridge.StopAsyncIteration))
     = [Bridge.TextMessageContentEvent "m1" "Done";
        Bridge.RunFinishedEvent "thread-1" "run-1"].
Proof.
  destruct (encoding_failure_ends_stream Bridge.sse_encode
              (firstn 2 five_events)
              (Bridge.TextMessageContentEvent "m1" EmptyString)
              (skipn 3 five_events)
              Bridge.StopAsyncIteration
              ["data: TEXT_MESSAGE_CONTENT Analyzing NVDA" +:+ Bridge.newline +:+ Bridge.newline;
               "data: TOOL_CALL_START get_stock_price" +:+ Bridge.newline +:+ Bridge.newline]
              (mk_exn ValueError "Delta must not be an empty string"))
    as (_ & Hs & _ & _ & Hu & _).
  - repeat constructor.
  - reflexivity.
  - split; [exact Hs | exact Hu].
Defined.

(** With an encoder too tight for the synthetic event, the third chunk is
    the literal. *)
Example third_of_five_falls_back_to_literal :
  Bridge.stream (Bridge.limited_encode 40)
      (Bridge.mk_source
         [Bridge.TextMessageContentEvent "m1" "Analyzing NVDA";
          Bridge.ToolCallStartEvent "t1" "get_stock_price";
          Bridge.TextMessageContentEvent "m1" "A delta that is far longer than forty characters";
          Bridge.TextMessageContentEvent "m1" "Done";
          Bridge.RunFinishedEvent "thread-1" "run-1"]
         Bridge.StopAsyncIteration)
    = ["data: TEXT_MESSAGE_CONTENT Analyzing NVDA" +:+ Bridge.newline +:+ Bridge.newline;
       "data: TOOL_CALL_START get_stock_price" +:+ Bridge.newline +:+ Bridge.newline;
       Bridge.encoding_fallback_literal].
Proof. reflexivity. Qed.

(** A source that raises after two events: two chunks, then the agent
    error chunk, whose text is the encoded AGENT_ERROR event. *)
Lemma raising_source_reports_once :
  exists before c,
    Bridge.yielded
      (Bridge.event_generator Bridge.sse_encode
         (Bridge.mk_source (firstn 2 five_events)
            (Bridge.Raised (mk_exn RuntimeError "model overloaded"))))
      = before ++ [c]
    /\ Bridge.is_error_chunk c = true
    /\ ((exists ev encoding_error,
           In ev (firstn 2 five_events)
           /\ Bridge.sse_encode ev = Raise encoding_error
           /\ Bridge.text c
              = match Bridge.sse_encode
                        (Bridge.RunErrorEvent
                           ("Event encoding failed: " +:+ exc_str encoding_error)
                           "ENCODING_ERROR") with
                | Return error_encoded => error_encoded
                | Raise _ => Bridge.encoding_fallback_literal
                end)
        \/ (exists agent_error,
              Bridge.Raised (mk_exn RuntimeError "model overloaded")
              = Bridge.Raised agent_error
              /\ Forall (fun ev => exists s, Bridge.sse_encode ev = Return s)
                        (firstn 2 five_events)
              /\ Bridge.text c
                 = match Bridge.sse_encode
                           (Bridge.RunErrorEvent
                              ("Agent execution failed: " +:+ exc_str agent_error)
                              "AGENT_ERROR") with
                   | Return error_encoded => error_encoded
                   | Raise _ => Bridge.agent_fallback_literal
                   end)).
Proof.
  destruct (at_most_one_error_chunk_and_it_is_last Bridge.sse_encode
              (Bridge.mk_source (firstn 2 five_events)
                 (Bridge.Raised (mk_exn RuntimeError "model overloaded"))))
    as (_ & _ & Hfail & _).
  apply Hfail. left. eexists. reflexivity.
Defined.

Example raising_source_stream :
  Bridge.stream Bridge.sse_encode
      (Bridge.mk_source (firstn 2 five_events)
         (Bridge.Raised (mk_exn RuntimeError "model overloaded")))
    = ["data: TEXT_MESSAGE_CONTENT Analyzing NVDA" +:+ Bridge.newline +:+ Bridge.newline;
       "data: TOOL_CALL_START get_stock_price" +:+ Bridge.newline +:+ Bridge.newline;
       "data: RUN_ERROR AGENT_ERROR Agent execution failed: model overloaded"
         +:+ Bridge.newline +:+ Bridge.newline].
Proof. reflexivity. Qed.

(** ** The session manager *)

Section SessionProperties.
Import Sessions.

Lemma get_agent_seen (s : string) (sm : SessionManager) (a : ADKAgent) :
  sessions sm !! s = Some a -> get_agent s sm = (a, sm).
Proof. intros Hs. unfold get_agent. now rewrite Hs. Qed.

Lemma get_agent_stores (s : string) (sm : SessionManager) :
  sessions (get_agent s sm).2 !! s = Some (get_agent s sm).1.
Proof.
  unfold get_agent. destruct (sessions sm !! s) eqn:Hs; simpl.
  - exact Hs.
  - apply lookup_insert_eq.
Qed.

Lemma get_agent_keeps (s t : string) (sm : SessionManager) (a : ADKAgent) :
  sessions sm !! s = Some a -> sessions (get_agent t sm).2 !! s = Some a.
Proof.
  intros Hs. unfold get_agent. destruct (sessions sm !! t) eqn:Ht; simpl.
  - exact Hs.
  - rewrite lookup_insert_ne; [exact Hs | congruence].
Qed.

Lemma get_agents_keeps (s : string) (ts : list string) (sm : SessionManager)
    (a : ADKAgent) :
  sessions sm !! s = Some a -> sessions (get_agents ts sm).2 !! s = Some a.
Proof.
  revert sm. induction ts as [|t ts IH]; intros sm Hs; simpl; [exact Hs|].
  pose proof (get_agent_keeps s t sm a Hs) as Hk.
  destruct (get_agent t sm) as [b sm1]. simpl in Hk.
  specialize (IH sm1 Hk). destruct (get_agents ts sm1) as [rest sm2].
  exact IH.
Qed.

(** C3: two calls in a row with the same thread id return the same
    instance and the second changes nothing; so does any later call,
    whatever other calls came in between.  On an unseen id the first call
    constructs exactly one agent and stores it under the id before
    returning it. *)
Theorem get_agent_returns_the_stored_instance
    (s : string) (sm : SessionManager) (between : list string) :
  let first := get_agent s sm in
  let second := get_agent s first.2 in
  let others := get_agents between second.2 in
  let later := get_agent s others.2 in
  second.1 = first.1 /\ second.2 = first.2
  /\ later.1 = first.1 /\ later.2 = others.2
  /\ (sessions sm !! s = None ->
      first.1 = create_agent s (constructed sm)
      /\ sessions first.2 = <[s := first.1]> (sessions sm)
      /\ constructed first.2 = S (constructed sm)
      /\ size (sessions first.2) = S (size (sessions sm))).
Proof.
  intros first second others later.
  pose proof (get_agent_stores s sm) as H1. fold first in H1.
  assert (H2 : second = (first.1, first.2)).
  { apply get_agent_seen, H1. }
  assert (H3 : sessions others.2 !! s = Some first.1).
  { apply get_agents_keeps. rewrite H2. exact H1. }
  assert (H4 : later = (first.1, others.2)).
  { apply get_agent_seen, H3. }
  rewrite H2, H4. simpl.
  split; [reflexivity|]. split; [reflexivity|].
  split; [reflexivity|]. split; [reflexivity|].
  intros Hnew. subst first. unfold get_agent. rewrite Hnew. simpl.
  split; [reflexivity|]. split; [reflexivity|]. split; [reflexivity|].
  now apply map_size_insert_None.
Qed.

Lemma get_agent_twice_on_fresh_manager :
  let first := get_agent "thread-7" init in
  first.1 = create_agent "thread-7" 0
  /\ sessions first.2 = <["thread-7" := first.1]> (sessions init)
  /\ constructed first.2 = 1%nat
  /\ size (sessions first.2) = 1%nat.
Proof.
  apply (get_agent_returns_the_stored_instance "thread-7" init ["a"; "b"]).
  reflexivity.
Defined.

End SessionProperties.

(** ** Requests racing for one unseen thread id *)

Section ConcurrentRequests.
Import Sessions.
Variable s : string.
Variable sm : SessionManager.
Hypothesis unseen : sessions sm !! s = None.

#[local] Abbreviation winner := (get_agent s sm).1.
#[local] Abbreviation sm1 := (get_agent s sm).2.
#[local] Abbreviation race_invariant := (race_invariant s sm).

Lemma sm1_has_winner : sessions sm1 !! s = Some winner.
Proof. apply get_agent_stores. Qed.

Lemma handle_request_for (headers : Headers) (m : SessionManager) :
  headers_get "x-thread-id" "default_thread" headers = s ->
  handle_request headers m
    = (mk_handled s (get_agent s m).1 (headers_get_or_None "accept" headers),
       (get_agent s m).2).
Proof.
  intros Hs. unfold handle_request. rewrite Hs.
  destruct (get_agent s m). reflexivity.
Qed.

Lemma step_keeps_invariant (i : nat) (l : Loop) :
  race_invariant l -> race_invariant (step i l).
Proof.
  intros [Hthr Hst]. unfold step.
  destruct (tasks l !! i) as [t|] eqn:Hi; [|split; assumption].
  pose proof (proj1 (Forall_lookup _ _) Hthr i t Hi) as Ht. simpl in Ht.
  destruct t as [headers n|h [|n]|h]; simpl in *.
  - rewrite (handle_request_for headers (manager l) Ht).
    split; simpl.
    + apply Forall_insert; [exact Hthr | reflexivity].
    + right. destruct Hst as [[-> Hnone]|[-> Hwin]].
      * split; [reflexivity|]. apply Forall_insert; [|right; reflexivity].
        eapply Forall_impl; [exact Hnone|]. intros x Hx. left. exact Hx.
      * rewrite (get_agent_seen s sm1 winner sm1_has_winner). simpl.
        split; [reflexivity|]. apply Forall_insert; [exact Hwin|].
        right. reflexivity.
  - split; simpl; [apply Forall_insert; [exact Hthr | exact Ht]|].
    destruct Hst as [[Hm Hnone]|[Hm Hwin]].
    + exfalso. pose proof (proj1 (Forall_lookup _ _) Hnone i _ Hi).
      discriminate.
    + right. split; [exact Hm|]. apply Forall_insert; [exact Hwin|].
      exact (proj1 (Forall_lookup _ _) Hwin i _ Hi).
  - split; simpl; [apply Forall_insert; [exact Hthr | exact Ht]|].
    destruct Hst as [[Hm Hnone]|[Hm Hwin]].
    + exfalso. pose proof (proj1 (Forall_lookup _ _) Hnone i _ Hi).
      discriminate.
    + right. split; [exact Hm|]. apply Forall_insert; [exact Hwin|].
      exact (proj1 (Forall_lookup _ _) Hwin i _ Hi).
  - split; simpl; [apply Forall_insert; [exact Hthr | exact Ht]|].
    destruct Hst as [[Hm Hnone]|[Hm Hwin]].
    + exfalso. pose proof (proj1 (Forall_lookup _ _) Hnone i _ Hi).
      discriminate.
    + right. split; [exact Hm|]. apply Forall_insert; [exact Hwin|].
      exact (proj1 (Forall_lookup _ _) Hwin i _ Hi).
Qed.

Lemma run_keeps_invariant (schedule : list nat) (l : Loop) :
  race_invariant l -> race_invariant (run schedule l).
Proof.
  revert l. induction schedule as [|i schedule IH]; intros l Hl; simpl.
  - exact Hl.
  - apply IH, step_keeps_invariant, Hl.
Qed.

Lemma step_length (i : nat) (l : Loop) :
  length (tasks (step i l)) = length (tasks l).
Proof.
  unfold step. destruct (tasks l !! i) as [t|]; [|reflexivity].
  destruct (resume t (manager l)). simpl. apply length_insert.
Qed.

Lemma run_length (schedule : list nat) (l : Loop) :
  length (tasks (run schedule l)) = length (tasks l).
Proof.
  revert l. induction schedule as [|i schedule IH]; intros l; simpl.
  - reflexivity.
  - unfold run in IH. rewrite IH. apply step_length.
Qed.

Lemma resume_holds (t : Task) (m : SessionManager) :
  is_Some (holds (resume t m).1).
Proof.
  destruct t as [headers n|h [|n]|h]; simpl; eauto.
  destruct (handle_request headers m). simpl. eauto.
Qed.

(** A task that holds an agent holds one ever after. *)
Lemma step_keeps_holding (i j : nat) (l : Loop) (t : Task) :
  tasks l !! j = Some t -> is_Some (holds t) ->
  exists t', tasks (step i l) !! j = Some t' /\ is_Some (holds t').
Proof.
  intros Hj Ht. unfold step.
  destruct (tasks l !! i) as [ti|] eqn:Hi; [|eauto].
  pose proof (resume_holds ti (manager l)) as Hr.
  destruct (resume ti (manager l)) as [t1 m1]. simpl in *.
  destruct (decide (i = j)) as [->|Hne].
  - exists t1. split; [|exact Hr].
    apply list_lookup_insert_eq. eapply lookup_lt_Some, Hj.
  - exists t. split; [|exact Ht]. rewrite list_lookup_insert_ne; auto.
Qed.

(** Resuming a task makes it hold an agent. *)
Lemma step_starts (i : nat) (l : Loop) :
  (i < length (tasks l))%nat ->
  exists t', tasks (step i l) !! i = Some t' /\ is_Some (holds t').
Proof.
  intros Hi. destruct (lookup_lt_is_Some_2 _ _ Hi) as [t Ht].
  unfold step. rewrite Ht.
  pose proof (resume_holds t (manager l)) as Hr.
  destruct (resume t (manager l)) as [t1 m1]. simpl in *.
  exists t1. split; [|exact Hr]. now apply list_lookup_insert_eq.
Qed.

Lemma run_keeps_holding (schedule : list nat) (j : nat) (l : Loop) (t : Task) :
  tasks l !! j = Some t -> is_Some (holds t) ->
  exists t', tasks (run schedule l) !! j = Some t' /\ is_Some (holds t').
Proof.
  revert l t. induction schedule as [|i schedule IH]; intros l t Hj Ht; simpl.
  - eauto.
  - destruct (step_keeps_holding i j l t Hj Ht) as [t' [Hj' Ht']].
    exact (IH _ _ Hj' Ht').
Qed.

Lemma run_starts (schedule : list nat) (i : nat) (l : Loop) :
  In i schedule -> (i < length (tasks l))%nat ->
  exists t', tasks (run schedule l) !! i = Some t' /\ is_Some (holds t').
Proof.
  revert l. induction schedule as [|k schedule IH]; intros l Hin Hi; simpl.
  - inversion Hin.
  - destruct (decide (k = i)) as [->|Hne].
    + destruct (step_starts i l Hi) as [t' [Hj' Ht']].
      exact (run_keeps_holding schedule i _ t' Hj' Ht').
    + destruct Hin as [Hk|Hin]; [congruence|].
      apply IH; [exact Hin|]. now rewrite step_length.
Qed.

(** C4: requests for one unseen thread id, resumed by the event loop in
    any order: at most one agent is ever constructed and all tasks that
    hold an agent hold the same one; once every request has been resumed
    at least once, exactly one agent has been constructed, the registry has
    grown by exactly one entry, and every request holds that instance. *)
Theorem concurrent_requests_construct_one_session
    (requests : list Task) (schedule : list nat) :
  Forall (fun t => waiting t /\ thread_of t = s) requests ->
  let l := run schedule (mk_loop requests sm) in
  (constructed (manager l) <= S (constructed sm))%nat
  /\ (size (sessions (manager l)) <= S (size (sessions sm)))%nat
  /\ (forall t u a b,
        In t (tasks l) -> In u (tasks l) ->
        holds t = Some a -> holds u = Some b -> a = b)
  /\ (requests <> [] ->
      (forall i, (i < length requests)%nat -> In i schedule) ->
      constructed (manager l) = S (constructed sm)
      /\ size (sessions (manager l)) = S (size (sessions sm))
      /\ sessions (manager l)
           = <[s := create_agent s (constructed sm)]> (sessions sm)
      /\ length (tasks l) = length requests
      /\ Forall (fun t => holds t = Some (create_agent s (constructed sm)))
                (tasks l)).
Proof.
  intros Hreq l.
  assert (Hw : winner = create_agent s (constructed sm)).
  { unfold get_agent. now rewrite unseen. }
  assert (Hsm1 : sm1 = mk_manager (<[s := create_agent s (constructed sm)]> (sessions sm))
                        (S (constructed sm))
                        (stdout sm ++ ["‚ú® Creating new agent session for thread: " +:+ s])).
  { unfold get_agent. now rewrite unseen. }
  assert (Hinit : race_invariant (mk_loop requests sm)).
  { split; simpl.
    - eapply Forall_impl; [exact Hreq|]. now intros t [_ Ht].
    - left. split; [reflexivity|].
      eapply Forall_impl; [exact Hreq|]. intros [| |] [Hwt _]; simpl in *;
        [reflexivity | contradiction | contradiction]. }
  pose proof (run_keeps_invariant schedule _ Hinit) as [_ Hst]. fold l in Hst.
  pose proof (run_length schedule (mk_loop requests sm)) as Hlen.
  fold l in Hlen. simpl in Hlen.
  destruct Hst as [[Hm Hnone]|[Hm Hwin]].
  - rewrite Hm. split; [lia|]. split; [lia|]. split.
    + intros t u a b Ht _ Ha _.
      apply (proj1 (List.Forall_forall _ _) Hnone) in Ht. congruence.
    + intros Hne Hall. exfalso.
      destruct requests as [|r rs]; [congruence|].
      destruct (run_starts schedule 0 (mk_loop (r :: rs) sm)) as [t' [Hj [a Ha]]].
      * apply Hall. simpl. lia.
      * simpl. lia.
      * fold l in Hj.
        pose proof (proj1 (Forall_lookup _ _) Hnone 0%nat t' Hj) as Hn.
        simpl in Hn. congruence.
  - rewrite Hm, Hsm1. simpl. split; [lia|].
    assert (Hsize : size (<[s := create_agent s (constructed sm)]> (sessions sm))
                    = S (size (sessions sm))).
    { now apply map_size_insert_None. }
    split; [lia|]. split.
    + intros t u a b Ht Hu Ha Hb.
      apply (proj1 (List.Forall_forall _ _) Hwin) in Ht, Hu.
      destruct Ht as [Ht|Ht], Hu as [Hu|Hu]; congruence.
    + intros Hne Hall. split; [reflexivity|]. split; [exact Hsize|].
      split; [reflexivity|]. split; [exact Hlen|].
      apply Forall_lookup. intros i t Hi.
      assert (Hlt : (i < length requests)%nat).
      { rewrite <- Hlen. eapply lookup_lt_Some, Hi. }
      destruct (run_starts schedule i (mk_loop requests sm) (Hall i Hlt) Hlt)
        as [t' [Hj [a Ha]]].
      fold l in Hj. rewrite Hi in Hj. injection Hj as <-.
      pose proof (proj1 (Forall_lookup _ _) Hwin i t Hi) as Hor.
      simpl in Hor. rewrite <- Hw. destruct Hor as [Hor|Hor]; congruence.
Qed.

End ConcurrentRequests.

Lemma three_requests_one_session :
  let l := Sessions.run [2; 0; 2; 1; 0; 1; 0]%nat
             (Sessions.mk_loop three_requests Sessions.init) in
  Sessions.constructed (Sessions.manager l) = 1%nat
  /\ size (Sessions.sessions (Sessions.manager l)) = 1%nat
  /\ Sessions.sessions (Sessions.manager l)
       = <["thread-9" := Sessions.create_agent "thread-9" 0]> ∅
  /\ length (Sessions.tasks l) = 3%nat
  /\ Forall (fun t => Sessions.holds t
                      = Some (Sessions.create_agent "thread-9" 0))
            (Sessions.tasks l).
Proof.
  apply (concurrent_requests_construct_one_session "thread-9" Sessions.init
           eq_refl three_requests [2; 0; 2; 1; 0; 1; 0]%nat).
  - repeat constructor.
  - discriminate.
  - intros i Hi. simpl in Hi.
    destruct i as [|[|[|i]]]; simpl; auto 10. lia.
Defined.

(** ** The HTTP boundary *)

(** C5, as stated, fails: a request that names its session in the header
    [x-session-id] is served by the session of ["default_thread"]. *)
Lemma x_session_id_header_is_not_read :
  let headers := [("x-session-id", "alice")] in
  let served := Sessions.handle_request headers Sessions.init in
  Sessions.headers_get "x-session-id" "default_thread" headers = "alice"
  /\ Sessions.thread_id served.1 = "default_thread"
  /\ Sessions.thread_id served.1
     <> Sessions.headers_get "x-session-id" "default_thread" headers
  /\ Sessions.sessions served.2 !! "alice" = None.
Proof.
  repeat split; try reflexivity. discriminate.
Qed.

(** C5, amended: the handler selects or creates the session named by the
    request header [x-thread-id], and the session ["default_thread"] when
    that header is absent; the agent it runs is the one the session
    manager stores under that id. *)
Theorem handle_request_selects_session_by_x_thread_id
    (headers : Sessions.Headers) (sm : Sessions.SessionManager) :
  let selected :=
    match Sessions.headers_lookup "x-thread-id" headers with
    | Some v => v
    | None => "default_thread"
    end in
  let served := Sessions.handle_request headers sm in
  Sessions.thread_id served.1 = selected
  /\ served = (Sessions.mk_handled selected (Sessions.get_agent selected sm).1
                 (Sessions.headers_lookup "accept" headers),
               (Sessions.get_agent selected sm).2)
  /\ Sessions.sessions served.2 !! selected = Some (Sessions.agent served.1).
Proof.
  intros selected served.
  assert (Hs : Sessions.headers_get "x-thread-id" "default_thread" headers
               = selected) by reflexivity.
  assert (Hserved : served
            = (Sessions.mk_handled selected (Sessions.get_agent selected sm).1
                 (Sessions.headers_lookup "accept" headers),
               (Sessions.get_agent selected sm).2)).
  { unfold served, Sessions.handle_request. rewrite Hs.
    destruct (Sessions.get_agent selected sm). reflexivity. }
  rewrite Hserved. simpl. split; [reflexivity|]. split; [reflexivity|].
  apply get_agent_stores.
Qed.

Example x_thread_id_header_selects :
  Sessions.thread_id
    (Sessions.handle_request
       [("accept", "text/event-stream"); ("x-thread-id", "alice")]
       Sessions.init).1 = "alice".
Proof. reflexivity. Qed.

(** ** The stage contract *)

Section StageProperties.
Import Stages.

(** C9: on a store without [market_data_analysis_output] the trading
    stage halts: the reasoning engine is not invoked, the store is left as
    it was -- so nothing is written under
    [proposed_trading_strategies_output] -- and the only event is one
    run-error event whose message names the missing key. *)
Theorem trading_stage_halts_without_market_data
    (engine : Engine) (st : gmap string Tools.Value) :
  st !! "market_data_analysis_output" = None ->
  let r := run_stage trading_analyst engine st in
  engine_calls r = 0%nat
  /\ store r = st
  /\ store r !! "proposed_trading_strategies_output"
     = st !! "proposed_trading_strategies_output"
  /\ events r
     = [Bridge.RunErrorEvent
          (trading_analyst_halt "market_data_analysis_output")
          "MISSING_DEPENDENCY"]
  /\ contains (trading_analyst_halt "market_data_analysis_output")
              "market_data_analysis_output".
Proof.
  intros Hmissing r. unfold r, run_stage. simpl. rewrite Hmissing. simpl.
  repeat split.
  unfold contains, trading_analyst_halt. eexists _, _. reflexivity.
Qed.

End StageProperties.

Lemma trading_stage_halts_on_preferences_only :
  let r := Stages.run_stage Stages.trading_analyst eager_engine
             preferences_only in
  Stages.engine_calls r = 0%nat
  /\ Stages.store r = preferences_only
  /\ Stages.store r !! "proposed_trading_strategies_output"
     = preferences_only !! "proposed_trading_strategies_output"
  /\ Stages.events r
     = [Bridge.RunErrorEvent
          (Stages.trading_analyst_halt "market_data_analysis_output")
          "MISSING_DEPENDENCY"]
  /\ contains (Stages.trading_analyst_halt "market_data_analysis_output")
              "market_data_analysis_output".
Proof.
  apply (trading_stage_halts_without_market_data eager_engine
           preferences_only).
  reflexivity.
Defined.

(** With the key present the same engine is invoked and its output is
    written. *)
Example trading_stage_runs_with_market_data :
  let st : gmap string Tools.Value :=
    {["market_data_analysis_output" := Tools.Str "analysis"]} in
  let r := Stages.run_stage Stages.trading_analyst eager_engine st in
  Stages.engine_calls r = 1%nat
  /\ Stages.store r !! "proposed_trading_strategies_output"
     = Some (Tools.Str "five strategies").
Proof. split; reflexivity. Qed.

(** ** The numeric sanitizer and the retrieval tools *)

Section ToolProperties.
Import Tools.
Context `{PyRuntime}.

(** *** [safe_float] *)

Lemma safe_float_None : safe_float None_ = Return None.
Proof. reflexivity. Qed.

Lemma safe_float_nan : safe_float (Float nan) = Return None.
Proof. reflexivity. Qed.

Lemma safe_float_inf :
  safe_float (Float inf) = Return None
  /\ safe_float (Float neg_inf) = Return None.
Proof. split; reflexivity. Qed.

Lemma safe_float_finite (f : spec_float) :
  is_finite f = true -> safe_float (Float f) = Return (Some f).
Proof.
  destruct f as [s|s| |s m e]; simpl; try discriminate; intros _.
  - destruct s; reflexivity.
  - unfold safe_float. simpl. destruct s; reflexivity.
Qed.

Lemma safe_float_3_14 : safe_float (Float f3_14) = Return (Some f3_14).
Proof. reflexivity. Qed.

Lemma safe_float_non_numeric :
  safe_float (VList []) = Return None /\ safe_float (VDict []) = Return None.
Proof. split; reflexivity. Qed.

(** Whatever the input, a float that [safe_float] returns is finite. *)
Lemma safe_float_result_is_finite (value : Value) (f : spec_float) :
  safe_float value = Return (Some f) -> is_finite f = true.
Proof.
  unfold safe_float. destruct (is_None value); [discriminate|].
  destruct (py_float value) as [float_val|e]; simpl.
  - destruct float_val as [s|[|]| |s m e]; simpl; try discriminate;
      intros Hf; injection Hf as <-; reflexivity.
  - destruct (catches_ValueError_TypeError (exc_class e)); discriminate.
Qed.

(** A string that [float] rejects with a [ValueError] is absent. *)
Lemma safe_float_malformed_string (s msg : string) :
  float_of_str s = Raise (mk_exn ValueError msg) ->
  safe_float (Str s) = Return None.
Proof. intros Hs. unfold safe_float. simpl. now rewrite Hs. Qed.

(** C6 at an integer beyond the float range: [float] raises
    [OverflowError], which [safe_float] does not catch, so the call
    neither returns "absent" nor a float. *)
Theorem safe_float_raises_on_huge_int :
  safe_float (Int (10 ^ 400))
  = Raise (mk_exn OverflowError "int too large to convert to float").
Proof. vm_compute. reflexivity. Qed.

(** *** Reading a returned record back *)

Lemma bind_Return_inv {A B} (c : Exc A) (k : A -> Exc B) (b : B) :
  Py.bind c k = Return b -> exists a, c = Return a /\ k a = Return b.
Proof. destruct c as [a|e]; simpl; [eauto | discriminate]. Qed.

(** A function that ends in [except Exception] returns a record with a
    given field as soon as its body and its handler both do. *)
Lemma try_except_Exception_field (body : Exc Dict) (h : exn -> Dict)
    (key : string) (v : Value) :
  (forall r, body = Return r -> dict_lookup key r = Some v) ->
  (forall e, dict_lookup key (h e) = Some v) ->
  dict_lookup key (try_except_Exception body h) = Some v.
Proof. intros Hb Hh. destruct body as [r|e]; simpl; auto. Qed.

Lemma dict_display_head (k : string) (v : Value)
    (rest : list (string * Exc Value)) (d : Dict) :
  dict_display ((k, Return v) :: rest) = Return d ->
  exists d', d = (k, v) :: d'.
Proof.
  simpl. intros Hd. apply bind_Return_inv in Hd as (d' & _ & Hd).
  injection Hd as <-. eauto.
Qed.

Lemma ticker_survives_drop_None (t : string) (d : Dict) :
  dict_lookup "ticker" (drop_None (("ticker", Str t) :: d)) = Some (Str t).
Proof. reflexivity. Qed.

Ltac invert_bind Hbody :=
  let x := fresh "x" in
  let Hx := fresh "Hx" in
  apply bind_Return_inv in Hbody as (x & Hx & Hbody); cbv beta zeta in Hbody.

(** C10: every record any of the five tools returns, on every path,
    holds under ["ticker"] the upper-cased ticker it was called with. *)
Theorem every_record_carries_the_upper_cased_ticker
    (yf : Provider) (ticker period : string)
    (start_date end_date : option string) (now : Z) :
  dict_lookup "ticker" (get_stock_price yf ticker) = Some (Str (upper ticker))
  /\ dict_lookup "ticker"
       (get_historical_data yf ticker period start_date end_date)
     = Some (Str (upper ticker))
  /\ dict_lookup "ticker" (get_financial_info yf ticker)
     = Some (Str (upper ticker))
  /\ dict_lookup "ticker" (get_earnings_dates yf now ticker)
     = Some (Str (upper ticker))
  /\ dict_lookup "ticker" (get_analyst_recommendations yf ticker)
     = Some (Str (upper ticker)).
Proof.
  repeat split.
  - unfold get_stock_price.
    apply try_except_Exception_field; [|reflexivity].
    intros r Hr. do 2 invert_bind Hr.
    destruct x0 as [[|kv d]|]; try (injection Hr as <-; reflexivity).
    invert_bind Hr. apply dict_display_head in Hx1 as [d' ->].
    destruct (_ <=? 1)%nat; injection Hr as <-; reflexivity.
  - unfold get_historical_data.
    apply try_except_Exception_field; [|reflexivity].
    intros r Hr. do 2 invert_bind Hr.
    destruct (df_empty x0); [injection Hr as <-; reflexivity|].
    invert_bind Hr. destruct x1; injection Hr as <-; reflexivity.
  - unfold get_financial_info.
    apply try_except_Exception_field; [|reflexivity].
    intros r Hr. do 3 invert_bind Hr.
    apply dict_display_head in Hx1 as [d' ->].
    injection Hr as <-. reflexivity.
  - unfold get_earnings_dates.
    apply try_except_Exception_field; [|reflexivity].
    intros r Hr. do 2 invert_bind Hr.
    destruct x0 as [df|]; [|injection Hr as <-; reflexivity].
    destruct (df_empty df); [injection Hr as <-; reflexivity|].
    do 2 invert_bind Hr. injection Hr as <-. reflexivity.
  - unfold get_analyst_recommendations.
    apply try_except_Exception_field; [|reflexivity].
    intros r Hr. do 2 invert_bind Hr.
    assert (Hinfo : forall r,
      (do info <- info x;
       do recommendation_key <- info_get "recommendationKey" info;
       if truthy recommendation_key then
         Return
           [("ticker", Str (upper ticker));
            ("currentRecommendation", recommendation_key);
            ("message", Str "Detailed recommendations history not available")]
       else
         Return
           [("ticker", Str (upper ticker));
            ("message", Str "No analyst recommendations available")])
      = Return r ->
      dict_lookup "ticker" r = Some (Str (upper ticker))).
    { clear. intros r Hr. do 2 invert_bind Hr.
      destruct (truthy x1); injection Hr as <-; reflexivity. }
    destruct x0 as [df|]; [|exact (Hinfo r Hr)].
    destruct (df_empty df); [exact (Hinfo r Hr)|].
    invert_bind Hr. injection Hr as <-. reflexivity.
Qed.

(** *** Records without data *)

(** [get_stock_price] never returns the ticker alone: a result that lost
    every other field to the sanitizer is replaced by an error record. *)
Lemma get_stock_price_never_bare (yf : Provider) (ticker : string) :
  (1 < length (get_stock_price yf ticker))%nat.
Proof.
  unfold get_stock_price.
  destruct (yf ticker) as [stock|e]; simpl; [|lia].
  destruct (info stock) as [[[|kv d]|]|e]; simpl; try lia.
  match goal with
  | |- context [Py.bind ?c _] => destruct c as [result|e]
  end; simpl; [|lia].
  destruct (length (drop_None result) <=? 1)%nat eqn:Hlen; simpl; [lia|].
  apply Nat.leb_gt in Hlen. exact Hlen.
Qed.

(** C8 at a ticker whose [info] dict is empty: [get_financial_info]
    returns the ticker alone, as a success record without an [error]
    field; the check [get_stock_price] makes is missing. *)
Theorem get_financial_info_returns_the_ticker_alone :
  get_financial_info (info_only []) "aapl" = [("ticker", Str "AAPL")]
  /\ dict_lookup "error" (get_financial_info (info_only []) "aapl") = None
  /\ dict_lookup "error" (get_stock_price (info_only []) "aapl")
     = Some (Str "No data available for this ticker. Please verify the ticker symbol is correct.")
  /\ get_stock_price (info_only [("currency", None_)]) "aapl"
     = [("ticker", Str "AAPL");
        ("error", Str "No valid price data available for this ticker")].
Proof. repeat split. Qed.

(** *** Historical data *)

(** A successful record never carries an empty [data] list. *)
Lemma historical_data_is_never_an_empty_list
    (yf : Provider) (ticker period : string)
    (start_date end_date : option string) (points : list Value) :
  dict_lookup "data" (get_historical_data yf ticker period start_date end_date)
    = Some (VList points) ->
  points <> [].
Proof.
  unfold get_historical_data.
  destruct (yf ticker) as [stock|e]; simpl; [|discriminate].
  match goal with
  | |- context [Py.bind ?c _] => destruct c as [hist|e]
  end; simpl; [|discriminate].
  destruct (df_empty hist); simpl; [discriminate|].
  destruct (hist_loop (columns hist) (rows hist)) as [[|p ps]|e]; simpl;
    try discriminate.
  intros Hp. injection Hp as <-. discriminate.
Qed.

(** Rows with a NaN among their five values are dropped. *)
Example half_nan_rows_are_dropped :
  get_historical_data (history_only frame_half_nan) "aapl" "1mo"
    (Some "2024-01-01") (Some "2024-02-01")
  = [("ticker", Str "AAPL");
     ("period", Str "2024-01-01 to 2024-02-01");
     ("dataPoints", Int 1);
     ("data",
        VList [VDict [("date", Str "2024-01-15");
                      ("open", Float f185_5); ("high", Float f185_5);
                      ("low", Float f185_5); ("close", Float f185_5);
                      ("volume", Int 52300000)]])].
Proof. reflexivity. Qed.

(** C7 at a row whose Open is infinite: [pd.notna] lets it through, so the
    successful result carries a data point whose [open] is not finite. *)
Theorem infinite_open_is_returned_as_a_data_point :
  get_historical_data (history_only frame_with_infinite_open) "aapl" "1mo"
    None None
  = [("ticker", Str "AAPL");
     ("period", Str "1mo");
     ("dataPoints", Int 1);
     ("data",
        VList [VDict [("date", Str "2024-01-15");
                      ("open", Float inf); ("high", Float f185_5);
                      ("low", Float f185_5); ("close", Float f185_5);
                      ("volume", Int 52300000)]])]
  /\ is_finite inf = false.
Proof. split; reflexivity. Qed.

(** The same slip on Volume: the row is not dropped; the conversion
    raises past the row handler and the whole call, valid rows included,
    becomes an error record. *)
Example infinite_volume_fails_the_whole_call :
  get_historical_data (history_only frame_with_infinite_volume) "aapl" "1mo"
    None None
  = [("ticker", Str "AAPL");
     ("error",
        Str "Failed to fetch historical data: cannot convert float infinity to integer")].
Proof. reflexivity. Qed.

End ToolProperties.

(** * Further properties of the event stream bridge *)

Section BridgeStreams.
Import Bridge.
Variable encode : Event -> Exc string.

Lemma Forall2_encoded_length (evs : list Event) (chunks : list string) :
  Forall2 (fun ev c => encode ev = Return c) evs chunks ->
  length chunks = length evs.
Proof. induction 1; simpl; congruence. Qed.

Lemma text_of_encoded (chunks : list string) :
  map text (map (mk_chunk YieldEncoded) chunks) = chunks.
Proof. rewrite map_map. simpl. apply map_id. Qed.

(** X1: when every event encodes and the agent run ends normally, the
    stream is exactly the encodings of the events, in order, with no error
    chunk, and the whole source has been consumed. *)
Theorem clean_run_streams_every_event
    (evs : list Event) (chunks : list string) :
  Forall2 (fun ev c => encode ev = Return c) evs chunks ->
  let src := mk_source evs StopAsyncIteration in
  stream encode src = chunks
  /\ yielded (event_generator encode src)
     = map (mk_chunk YieldEncoded) chunks
  /\ List.filter is_error_chunk (yielded (event_generator encode src)) = []
  /\ unconsumed (event_generator encode src) = []
  /\ consumed src (event_generator encode src) = length evs.
Proof.
  intros Hall src.
  destruct (async_for_encoded_prefix encode evs chunks [] StopAsyncIteration Hall)
    as [Hy Hu].
  rewrite app_nil_r in Hy, Hu. simpl in Hy, Hu. rewrite app_nil_r in Hy.
  unfold stream, consumed, event_generator, src. simpl. rewrite Hy, Hu.
  split; [apply text_of_encoded|]. split; [reflexivity|].
  split; [apply no_error_among_encoded|]. split; [reflexivity|].
  simpl. lia.
Qed.

(** X2: when every event encodes and the agent run then raises, the stream
    is the encodings followed by exactly one chunk: the encoded run-error
    event with code AGENT_ERROR whose message ends in the exception text,
    or the agent literal when that event cannot be encoded. *)
Theorem raising_run_ends_with_agent_error
    (evs : list Event) (chunks : list string) (agent_error : exn) :
  Forall2 (fun ev c => encode ev = Return c) evs chunks ->
  let src := mk_source evs (Raised agent_error) in
  let message := "Agent execution failed: " +:+ exc_str agent_error in
  let error_chunk :=
    match encode (RunErrorEvent message "AGENT_ERROR") with
    | Return error_encoded => error_encoded
    | Raise _ => agent_fallback_literal
    end in
  contains message (exc_str agent_error)
  /\ stream encode src = chunks ++ [error_chunk]
  /\ unconsumed (event_generator encode src) = []
  /\ length (stream encode src) = S (length evs).
Proof.
  intros Hall src message error_chunk.
  destruct (async_for_encoded_prefix encode evs chunks [] (Raised agent_error) Hall)
    as [Hy Hu].
  rewrite app_nil_r in Hy, Hu. simpl in Hy, Hu.
  assert (Hs : stream encode src = chunks ++ [error_chunk]).
  { unfold stream, event_generator, src. simpl. rewrite Hy.
    rewrite map_app, text_of_encoded. simpl. f_equal.
    unfold on_agent_error, error_chunk, message.
    destruct (encode (RunErrorEvent _ _)); reflexivity. }
  split; [apply contains_suffix|]. split; [exact Hs|].
  split; [exact Hu|].
  rewrite Hs, length_app, (Forall2_encoded_length evs chunks Hall). simpl. lia.
Qed.

(** X3: once an event fails to encode, how the agent run would have ended
    makes no difference: the generator has left the loop and never learns
    of a later exception of the source. *)
Theorem encoding_failure_hides_the_ending
    (evs : list Event) (e1 e2 : Ending) :
  Exists (encoding_fails encode) evs ->
  event_generator encode (mk_source evs e1)
  = event_generator encode (mk_source evs e2).
Proof.
  unfold event_generator. simpl.
  induction evs as [|ev evs IH]; intros Hex; [inversion Hex|].
  simpl. destruct (encode ev) as [encoded|encoding_error] eqn:Hev;
    [|reflexivity].
  rewrite IH; [reflexivity|].
  inversion Hex as [? ? [err Herr]|]; subst; [congruence | assumption].
Qed.

Lemma async_for_accounting (evs : list Event) (e : Ending) :
  exists took chunks,
    evs = took ++ unconsumed (async_for encode evs e)
    /\ Forall2 (fun ev c => encode ev = Return c)
               (firstn (length chunks) took) chunks
    /\ map text (List.filter (fun c => negb (is_error_chunk c))
                   (yielded (async_for encode evs e))) = chunks
    /\ (length chunks <= length took <= S (length chunks))%nat.
Proof.
  induction evs as [|ev evs IH]; simpl.
  - exists [], []. destruct e as [|agent_error]; simpl.
    + repeat split; try constructor; lia.
    + rewrite on_agent_error_is_error. simpl.
      repeat split; try constructor; lia.
  - destruct (encode ev) as [encoded|encoding_error] eqn:Hev; simpl.
    + destruct IH as (took & chunks & Hevs & Hall & Hy & Hlen).
      exists (ev :: took), (encoded :: chunks). simpl.
      split; [now rewrite <- Hevs|].
      split; [constructor; assumption|].
      split; [now rewrite Hy|]. lia.
    + exists [ev], []. simpl. rewrite on_encoding_error_is_error. simpl.
      repeat split; try constructor; lia.
Qed.

(** X4: in every run the events are consumed in source order, each chunk
    that is not an error chunk is the encoding of the event at the same
    position, and at most one consumed event -- the one that failed to
    encode -- has no chunk of its own. *)
Theorem chunks_follow_the_consumed_events (src : Source) :
  let r := event_generator encode src in
  let chunks :=
    map text (List.filter (fun c => negb (is_error_chunk c)) (yielded r)) in
  exists took,
    events src = took ++ unconsumed r
    /\ length took = consumed src r
    /\ Forall2 (fun ev c => encode ev = Return c)
               (firstn (length chunks) took) chunks
    /\ (length chunks <= consumed src r <= S (length chunks))%nat.
Proof.
  destruct src as [evs e]. unfold event_generator, consumed. simpl.
  destruct (async_for_accounting evs e) as (took & chunks & Hevs & Hall & Hy & Hlen).
  exists took. rewrite Hy.
  assert (Hc : length took
               = (length evs - length (unconsumed (async_for encode evs e)))%nat).
  { rewrite Hevs at 1. rewrite length_app. lia. }
  split; [exact Hevs|]. split; [exact Hc|]. split; [exact Hall|].
  rewrite <- Hc. exact Hlen.
Qed.

End BridgeStreams.

Lemma clean_run_of_two_events :
  Bridge.stream Bridge.sse_encode
      (Bridge.mk_source (firstn 2 five_events) Bridge.StopAsyncIteration)
    = ["data: TEXT_MESSAGE_CONTENT Analyzing NVDA" +:+ Bridge.newline +:+ Bridge.newline;
       "data: TOOL_CALL_START get_stock_price" +:+ Bridge.newline +:+ Bridge.newline]
  /\ Bridge.unconsumed
       (Bridge.event_generator Bridge.sse_encode
          (Bridge.mk_source (firstn 2 five_events) Bridge.StopAsyncIteration))
     = [].
Proof.
  destruct (clean_run_streams_every_event Bridge.sse_encode
              (firstn 2 five_events)
              ["data: TEXT_MESSAGE_CONTENT Analyzing NVDA" +:+ Bridge.newline +:+ Bridge.newline;
               "data: TOOL_CALL_START get_stock_price" +:+ Bridge.newline +:+ Bridge.newline])
    as (Hs & _ & _ & Hu & _).
  - repeat constructor.
  - split; [exact Hs | exact Hu].
Defined.

Lemma raising_run_with_tight_encoder :
  Bridge.stream (Bridge.limited_encode 40)
      (Bridge.mk_source (firstn 2 five_events)
         (Bridge.Raised (mk_exn RuntimeError "model overloaded")))
    = ["data: TEXT_MESSAGE_CONTENT Analyzing NVDA" +:+ Bridge.newline +:+ Bridge.newline;
       "data: TOOL_CALL_START get_stock_price" +:+ Bridge.newline +:+ Bridge.newline;
       Bridge.agent_fallback_literal].
Proof.
  destruct (raising_run_ends_with_agent_error (Bridge.limited_encode 40)
              (firstn 2 five_events)
              ["data: TEXT_MESSAGE_CONTENT Analyzing NVDA" +:+ Bridge.newline +:+ Bridge.newline;
               "data: TOOL_CALL_START get_stock_price" +:+ Bridge.newline +:+ Bridge.newline]
              (mk_exn RuntimeError "model overloaded"))
    as (_ & Hs & _).
  - repeat constructor.
  - exact Hs.
Defined.

Lemma third_of_five_hides_a_raising_source :
  Bridge.event_generator Bridge.sse_encode
    (Bridge.mk_source five_events Bridge.StopAsyncIteration)
  = Bridge.event_generator Bridge.sse_encode
      (Bridge.mk_source five_events
         (Bridge.Raised (mk_exn RuntimeError "model overloaded"))).
Proof.
  apply encoding_failure_hides_the_ending.
  apply Exists_cons_tl, Exists_cons_tl, Exists_cons_hd.
  eexists. reflexivity.
Defined.

(** * Further properties of the session manager *)

#[local] Set Warnings "-clear-no-such-hyp".

Section RegistryProperties.
Import Sessions Registry.

Lemma well_formed_init : well_formed init.
Proof.
  split; [reflexivity|]. split.
  - intros s a Hs. simpl in Hs. rewrite lookup_empty in Hs. discriminate.
  - intros s t a b Hs. simpl in Hs. rewrite lookup_empty in Hs. discriminate.
Qed.

Lemma get_agent_well_formed (t : string) (sm : SessionManager) :
  well_formed sm -> well_formed (get_agent t sm).2.
Proof.
  intros (Hsize & Hbound & Hinj). unfold get_agent.
  destruct (sessions sm !! t) as [old|] eqn:Ht; simpl;
    [split; [|split]; assumption|].
  split; [|split]; simpl.
  - rewrite map_size_insert_None by exact Ht. congruence.
  - intros s a Hs. destruct (decide (t = s)) as [->|Hne].
    + rewrite lookup_insert_eq in Hs. injection Hs as <-. simpl.
      split; [reflexivity | lia].
    + rewrite lookup_insert_ne in Hs by exact Hne.
      destruct (Hbound s a Hs). split; [assumption | lia].
  - intros s u a b Hs Hu Hid.
    destruct (decide (t = s)) as [Hs_eq|Hs_ne], (decide (t = u)) as [Hu_eq|Hu_ne];
      try congruence.
    + subst s. rewrite lookup_insert_eq in Hs. injection Hs as <-. simpl in Hid.
      rewrite lookup_insert_ne in Hu by exact Hu_ne.
      destruct (Hbound u b Hu). lia.
    + subst u. rewrite lookup_insert_eq in Hu. injection Hu as <-. simpl in Hid.
      rewrite lookup_insert_ne in Hs by exact Hs_ne.
      destruct (Hbound s a Hs). lia.
    + rewrite lookup_insert_ne in Hs by exact Hs_ne.
      rewrite lookup_insert_ne in Hu by exact Hu_ne.
      exact (Hinj s u a b Hs Hu Hid).
Qed.

Lemma get_agents_well_formed (ts : list string) (sm : SessionManager) :
  well_formed sm -> well_formed (get_agents ts sm).2.
Proof.
  revert sm. induction ts as [|t ts IH]; intros sm Hwf; simpl; [exact Hwf|].
  pose proof (get_agent_well_formed t sm Hwf) as H1.
  destruct (get_agent t sm) as [a sm1]. simpl in H1.
  specialize (IH sm1 H1). destruct (get_agents ts sm1) as [rest sm2].
  exact IH.
Qed.

Lemma get_agent_dom (t : string) (sm : SessionManager) :
  dom (sessions (get_agent t sm).2) = {[t]} ∪ dom (sessions sm).
Proof.
  unfold get_agent. destruct (sessions sm !! t) as [old|] eqn:Ht; simpl.
  - apply elem_of_dom_2 in Ht. set_solver.
  - apply dom_insert_L.
Qed.

Lemma get_agents_dom (ts : list string) (sm : SessionManager) :
  dom (sessions (get_agents ts sm).2) = list_to_set ts ∪ dom (sessions sm).
Proof.
  revert sm. induction ts as [|t ts IH]; intros sm; simpl; [set_solver|].
  pose proof (get_agent_dom t sm) as H1.
  destruct (get_agent t sm) as [a sm1]. simpl in H1.
  specialize (IH sm1). destruct (get_agents ts sm1) as [rest sm2].
  simpl in *. rewrite IH, H1. set_solver.
Qed.

(** X5: after any sequence of [get_agent] calls on a fresh manager the
    stored thread ids are exactly the ids asked for, one agent was
    constructed per distinct id, and the health check reports that number
    of active sessions. *)
Theorem registry_counts_distinct_threads (ts : list string) :
  let sm := (get_agents ts init).2 in
  dom (sessions sm) = list_to_set ts
  /\ constructed sm = size (list_to_set ts : gset string)
  /\ health_check sm
     = mk_health "healthy" "google_search_assistant" ["google_search"]
                 (size (list_to_set ts : gset string)).
Proof.
  intros sm.
  assert (Hdom : dom (sessions sm) = list_to_set ts).
  { unfold sm. rewrite get_agents_dom. simpl. rewrite dom_empty_L. set_solver. }
  destruct (get_agents_well_formed ts init well_formed_init) as (Hsize & _).
  fold sm in Hsize.
  assert (Hn : size (sessions sm) = size (list_to_set ts : gset string)).
  { rewrite <- Hdom. symmetry. apply size_dom. }
  split; [exact Hdom|]. split; [congruence|].
  unfold health_check. now rewrite Hn.
Qed.

(** X6: in a manager reached from a fresh one by [get_agent] calls, the
    agent stored for a thread is bound to that thread ([user_id]) with the
    fixed application name and timeout, and two threads share an instance
    only if they are the same thread. *)
Theorem stored_agents_belong_to_their_thread
    (ts : list string) (s t : string) (a b : ADKAgent) :
  let sm := (get_agents ts init).2 in
  sessions sm !! s = Some a ->
  sessions sm !! t = Some b ->
  user_id a = s
  /\ app_name a = "finacial_advisor_app"
  /\ session_timeout_seconds a = 3600
  /\ (object_id a = object_id b <-> s = t)
  /\ (a = b <-> s = t).
Proof.
  intros sm Hs Ht.
  destruct (get_agents_well_formed ts init well_formed_init)
    as (_ & Hbound & Hinj). fold sm in Hbound, Hinj.
  destruct (Hbound s a Hs) as [Ha _].
  assert (Hst : s = t -> a = b) by (intros ->; congruence).
  rewrite Ha. simpl. split; [reflexivity|]. split; [reflexivity|].
  split; [reflexivity|]. rewrite <- Ha. split; split.
  - exact (Hinj s t a b Hs Ht).
  - intros Heq. now rewrite (Hst Heq).
  - intros Heq. apply (Hinj s t a b Hs Ht). now rewrite Heq.
  - exact Hst.
Qed.

Lemma get_agents_keeps_lookup (ts : list string) (s : string)
    (sm : SessionManager) (a : ADKAgent) :
  sessions sm !! s = Some a -> sessions (get_agents ts sm).2 !! s = Some a.
Proof. apply get_agents_keeps. Qed.

(** X7: a sequence of [get_agent] calls returns one agent per call, and
    each call received the instance that is stored under its thread id at
    the end: entries are never replaced or removed. *)
Theorem every_caller_holds_the_stored_instance
    (ts : list string) (sm : SessionManager) :
  Forall2 (fun t a => sessions (get_agents ts sm).2 !! t = Some a)
          ts (get_agents ts sm).1.
Proof.
  revert sm. induction ts as [|t ts IH]; intros sm; simpl; [constructor|].
  pose proof (get_agent_stores t sm) as H1.
  destruct (get_agent t sm) as [a sm1]. simpl in H1.
  specialize (IH sm1).
  pose proof (get_agents_keeps_lookup ts t sm1 a H1) as H2.
  destruct (get_agents ts sm1) as [rest sm2]. simpl in *.
  constructor; assumption.
Qed.

Lemma handle_request_keeps_invariant (headers : Headers) (sm : SessionManager) :
  well_formed sm ->
  well_formed (handle_request headers sm).2
  /\ served_from_registry (handle_request headers sm).2
       (Streaming (handle_request headers sm).1 0)
  /\ (forall s a, sessions sm !! s = Some a ->
        sessions (handle_request headers sm).2 !! s = Some a).
Proof.
  intros Hwf. unfold handle_request.
  set (tid := headers_get "x-thread-id" "default_thread" headers).
  pose proof (get_agent_well_formed tid sm Hwf) as H1.
  pose proof (get_agent_stores tid sm) as H2.
  pose proof (fun s a => get_agent_keeps s tid sm a) as H3.
  destruct (get_agent tid sm) as [a sm1]. simpl in *. auto.
Qed.

Lemma step_keeps_loop_invariant (i : nat) (l : Loop) :
  loop_invariant l -> loop_invariant (step i l).
Proof.
  intros [Hwf Hserved]. unfold step.
  destruct (tasks l !! i) as [t|] eqn:Hi; [|split; assumption].
  pose proof (proj1 (Forall_lookup _ _) Hserved i t Hi) as Ht.
  destruct t as [headers n|h [|n]|h]; simpl in *.
  - destruct (handle_request_keeps_invariant headers (manager l) Hwf)
      as (Hwf1 & Hnew & Hkeep).
    destruct (handle_request headers (manager l)) as [h sm1]. simpl in *.
    split; [exact Hwf1|]. simpl. apply Forall_insert; [|exact Hnew].
    eapply Forall_impl; [exact Hserved|].
    intros [| |]; simpl; auto.
  - split; [exact Hwf|]. simpl. apply Forall_insert; assumption.
  - split; [exact Hwf|]. simpl. apply Forall_insert; assumption.
  - split; [exact Hwf|]. simpl. apply Forall_insert; assumption.
Qed.

Lemma run_keeps_loop_invariant (schedule : list nat) (l : Loop) :
  loop_invariant l -> loop_invariant (run schedule l).
Proof.
  revert l. induction schedule as [|i schedule IH]; intros l Hl; simpl.
  - exact Hl.
  - apply IH, step_keeps_loop_invariant, Hl.
Qed.

Lemma served_thread (sm : SessionManager) (t : Task) (a : ADKAgent) :
  served_from_registry sm t -> holds t = Some a ->
  sessions sm !! thread_of t = Some a.
Proof.
  destruct t as [headers n|h n|h]; simpl; intros Hs Ha;
    [discriminate | |]; injection Ha as <-; exact Hs.
Qed.

(** X8: requests for any mix of thread ids, resumed by the event loop in
    any order: two requests hold the same agent instance exactly when they
    are for the same thread. *)
Theorem requests_share_an_agent_iff_same_thread
    (requests : list Task) (schedule : list nat) (t u : Task)
    (a b : ADKAgent) :
  Forall waiting requests ->
  let l := run schedule (mk_loop requests init) in
  In t (tasks l) -> In u (tasks l) ->
  holds t = Some a -> holds u = Some b ->
  (a = b <-> thread_of t = thread_of u).
Proof.
  intros Hw l Ht Hu Ha Hb.
  assert (Hinit : loop_invariant (mk_loop requests init)).
  { split; [exact well_formed_init|]. simpl.
    eapply Forall_impl; [exact Hw|]. intros [| |]; simpl; tauto. }
  destruct (run_keeps_loop_invariant schedule _ Hinit) as [Hwf Hserved].
  fold l in Hwf, Hserved.
  apply (proj1 (List.Forall_forall _ _) Hserved) in Ht, Hu.
  pose proof (served_thread _ t a Ht Ha) as Hta.
  pose proof (served_thread _ u b Hu Hb) as Hub.
  destruct Hwf as (_ & Hbound & _).
  destruct (Hbound _ _ Hta) as [Hida _]. destruct (Hbound _ _ Hub) as [Hidb _].
  split.
  - intros ->. rewrite Hida in Hidb. unfold create_agent in Hidb.
    congruence.
  - intros Heq. rewrite Heq in Hta. congruence.
Qed.

End RegistryProperties.

Lemma two_threads_after_three_calls :
  Sessions.user_id (Sessions.create_agent "alice" 0) = "alice"
  /\ Sessions.app_name (Sessions.create_agent "alice" 0) = "finacial_advisor_app"
  /\ Sessions.session_timeout_seconds (Sessions.create_agent "alice" 0) = 3600
  /\ (Sessions.object_id (Sessions.create_agent "alice" 0)
        = Sessions.object_id (Sessions.create_agent "bob" 1)
      <-> "alice" = "bob")
  /\ (Sessions.create_agent "alice" 0 = Sessions.create_agent "bob" 1
      <-> "alice" = "bob").
Proof.
  apply (stored_agents_belong_to_their_thread ["alice"; "bob"; "alice"]
           "alice" "bob"
           (Sessions.create_agent "alice" 0) (Sessions.create_agent "bob" 1));
    vm_compute; reflexivity.
Defined.

Lemma alice_and_bob_hold_different_agents :
  Sessions.create_agent "alice" 0 = Sessions.create_agent "bob" 1
  <-> "alice" = "bob".
Proof.
  apply (requests_share_an_agent_iff_same_thread mixed_requests
           [2; 1; 0; 2]%nat
           (Sessions.Streaming
              (Sessions.mk_handled "alice" (Sessions.create_agent "alice" 0) None) 1)
           (Sessions.Streaming
              (Sessions.mk_handled "bob" (Sessions.create_agent "bob" 1) None) 0)
           (Sessions.create_agent "alice" 0) (Sessions.create_agent "bob" 1)).
  - repeat constructor.
  - vm_compute. auto.
  - vm_compute. auto.
  - reflexivity.
  - reflexivity.
Defined.

(** * Further properties of the market-data tools *)

Section ToolOutcomes.
Import Tools.
Context `{PyRuntime}.

(** X9: whatever it is given, [safe_float] ends in one of three ways: it
    returns [None], it returns a finite float, or it lets an exception
    escape that is neither a [ValueError] nor a [TypeError]. *)
Theorem safe_float_outcomes (value : Value) :
  match safe_float value with
  | Return None => True
  | Return (Some f) => is_finite f = true
  | Raise e => catches_ValueError_TypeError (exc_class e) = false
  end.
Proof.
  unfold safe_float. destruct (is_None value); [exact I|].
  destruct (py_float value) as [float_val|e]; simpl.
  - destruct float_val as [s|[|]| |s m e]; simpl; reflexivity || exact I.
  - destruct (catches_ValueError_TypeError (exc_class e)) eqn:He;
      [exact I | exact He].
Qed.

(** X10: on a float [safe_float] keeps exactly the finite values, zero of
    either sign included, and a bool counts as the number 1.0 or 0.0. *)
Theorem safe_float_on_floats_and_bools (f : spec_float) (b : bool) :
  safe_float (Float f) = Return (if is_finite f then Some f else None)
  /\ safe_float (Atom (SBool b)) = Return (Some (float_of_bool b)).
Proof.
  split.
  - destruct f as [s|[|]| |s m e]; try reflexivity;
      unfold safe_float; simpl; destruct s; reflexivity.
  - destruct b; reflexivity.
Qed.

(** *** What the records hold *)

Lemma dict_lookup_In (key : string) (d : Dict) (v : Value) :
  dict_lookup key d = Some v -> In (key, v) d.
Proof.
  induction d as [|[k w] d IH]; simpl; [discriminate|].
  destruct (String.eqb k key) eqn:Hk.
  - apply String.eqb_eq in Hk. intros Hv. injection Hv as <-. subst. now left.
  - intros Hv. right. exact (IH Hv).
Qed.

Lemma drop_None_In (k : string) (v : Value) (d : Dict) :
  In (k, v) (drop_None d) -> In (k, v) d /\ is_None v = false.
Proof.
  unfold drop_None. rewrite List.filter_In. simpl.
  intros [Hin Hv]. split; [exact Hin|]. now destruct (is_None v).
Qed.

Lemma dict_display_In (es : list (string * Exc Value)) (d : Dict)
    (k : string) (v : Value) :
  dict_display es = Return d -> In (k, v) d -> In (k, Return v) es.
Proof.
  revert d. induction es as [|[k1 c1] es IH]; intros d Hd Hin; simpl in Hd.
  - injection Hd as <-. inversion Hin.
  - apply bind_Return_inv in Hd as (v1 & -> & Hd).
    apply bind_Return_inv in Hd as (d1 & Hd1 & Hd).
    injection Hd as <-. destruct Hin as [Heq|Hin].
    + injection Heq as -> ->. now left.
    + right. exact (IH d1 Hd1 Hin).
Qed.

Lemma dict_display_keys (es : list (string * Exc Value)) (d : Dict) :
  dict_display es = Return d -> map fst d = map fst es.
Proof.
  revert d. induction es as [|[k1 c1] es IH]; intros d Hd; simpl in Hd.
  - now injection Hd as <-.
  - apply bind_Return_inv in Hd as (v1 & _ & Hd).
    apply bind_Return_inv in Hd as (d1 & Hd1 & Hd).
    injection Hd as <-. simpl. now rewrite (IH d1 Hd1).
Qed.

Lemma safe_float_value_present (x v : Value) :
  safe_float_value x = Return v -> is_None v = false ->
  exists f, v = Float f /\ is_finite f = true.
Proof.
  unfold safe_float_value. intros Hx Hv.
  apply bind_Return_inv in Hx as (r & Hr & Hx). injection Hx as <-.
  destruct r as [f|]; [|discriminate].
  exists f. split; [reflexivity|]. exact (safe_float_result_is_finite x f Hr).
Qed.

Lemma info_float_present (key : string) (info : option Dict) (v : Value) :
  info_float key info = Return v -> is_None v = false ->
  exists f, v = Float f /\ is_finite f = true.
Proof.
  unfold info_float. intros Hx Hv.
  apply bind_Return_inv in Hx as (x & _ & Hx).
  exact (safe_float_value_present x v Hx Hv).
Qed.

(** X11: a record returned by [get_stock_price] or [get_financial_info]
    holds no [None] value: a field whose value is missing or was
    sanitized away is left out of the record. *)
Theorem price_and_financial_records_hold_no_None
    (yf : Provider) (ticker k : string) (v : Value) :
  In (k, v) (get_stock_price yf ticker)
  \/ In (k, v) (get_financial_info yf ticker) ->
  is_None v = false.
Proof.
  assert (Herr : forall msg,
    In (k, v) [("ticker", Str (upper ticker)); ("error", Str msg)] ->
    is_None v = false).
  { intros msg [Heq|[Heq|[]]]; injection Heq as _ <-; reflexivity. }
  intros [Hin|Hin].
  - unfold get_stock_price in Hin.
    destruct (yf ticker) as [stock|e]; simpl in Hin; [|exact (Herr _ Hin)].
    destruct (info stock) as [[[|kv d]|]|e]; simpl in Hin;
      try exact (Herr _ Hin).
    match type of Hin with
    | context [Py.bind ?c _] => destruct c as [result|e]
    end; simpl in Hin; [|exact (Herr _ Hin)].
    destruct (length (drop_None result) <=? 1)%nat; simpl in Hin;
      [exact (Herr _ Hin)|].
    exact (proj2 (drop_None_In k v result Hin)).
  - unfold get_financial_info in Hin.
    destruct (yf ticker) as [stock|e]; simpl in Hin; [|exact (Herr _ Hin)].
    destruct (info stock) as [info|e]; simpl in Hin; [|exact (Herr _ Hin)].
    match type of Hin with
    | context [Py.bind ?c _] => destruct c as [result|e]
    end; simpl in Hin; [|exact (Herr _ Hin)].
    exact (proj2 (drop_None_In k v result Hin)).
Qed.

Ltac absurd_field Hk := exfalso; simpl in Hk; intuition discriminate.

Lemma try_except_Exception_cases {A} (body : Exc A) (h : exn -> A) :
  (exists r, body = Return r /\ try_except_Exception body h = r)
  \/ (exists e, body = Raise e /\ try_except_Exception body h = h e).
Proof. destruct body as [r|e]; simpl; eauto. Qed.

Ltac returned Hbody :=
  let x := fresh "x" in
  let Hx := fresh "Hx" in
  apply bind_Return_inv in Hbody as (x & Hx & Hbody); cbv beta zeta in Hbody.

(** Split a statement about a tool's record into the record its body
    returned and the record its handler built. *)
Ltac by_outcome Hin :=
  match type of Hin with
  | context [try_except_Exception ?b ?h] =>
      let r := fresh "r" in
      let Hr := fresh "Hr" in
      let Heq := fresh "Heq" in
      destruct (try_except_Exception_cases b h)
        as [(r & Hr & Heq)|(r & Hr & Heq)];
      rewrite Heq in Hin; clear Heq; cbv beta in Hin
  end.

(** X12: every numeric field present in a [get_stock_price] record is a
    finite float: NaN and the infinities never reach the record. *)
Theorem stock_price_numbers_are_finite
    (yf : Provider) (ticker k : string) (v : Value) :
  In k stock_price_numeric_fields ->
  dict_lookup k (get_stock_price yf ticker) = Some v ->
  exists f, v = Float f /\ is_finite f = true.
Proof.
  intros Hk Hin. apply dict_lookup_In in Hin.
  assert (Herr : forall msg,
    In (k, v) [("ticker", Str (upper ticker)); ("error", Str msg)] -> False).
  { intros msg [Heq|[Heq|[]]]; injection Heq as <- _; absurd_field Hk. }
  unfold get_stock_price in Hin. by_outcome Hin; [|destruct (Herr _ Hin)].
  do 2 returned Hr.
  destruct x0 as [[|kv d]|];
    try (injection Hr as <-; destruct (Herr _ Hin)).
  returned Hr.
  destruct (_ <=? 1)%nat; injection Hr as <-; [destruct (Herr _ Hin)|].
  apply drop_None_In in Hin as [Hin Hv].
  apply (dict_display_In _ _ _ _ Hx1) in Hin. simpl in Hin.
  repeat (destruct Hin as [Hin|Hin];
    [injection Hin as <- Hc;
     first [exact (safe_float_value_present _ _ Hc Hv) | absurd_field Hk]|]).
  destruct Hin.
Qed.

(** X13: every numeric field present in a [get_financial_info] record is
    a finite float. *)
Theorem financial_numbers_are_finite
    (yf : Provider) (ticker k : string) (v : Value) :
  In k financial_numeric_fields ->
  dict_lookup k (get_financial_info yf ticker) = Some v ->
  exists f, v = Float f /\ is_finite f = true.
Proof.
  intros Hk Hin. apply dict_lookup_In in Hin.
  assert (Herr : forall msg,
    In (k, v) [("ticker", Str (upper ticker)); ("error", Str msg)] -> False).
  { intros msg [Heq|[Heq|[]]]; injection Heq as <- _; absurd_field Hk. }
  unfold get_financial_info in Hin. by_outcome Hin; [|destruct (Herr _ Hin)].
  do 3 returned Hr. injection Hr as <-.
  apply drop_None_In in Hin as [Hin Hv].
  apply (dict_display_In _ _ _ _ Hx1) in Hin. simpl in Hin.
  repeat (destruct Hin as [Hin|Hin];
    [injection Hin as <- Hc;
     first [exact (info_float_present _ _ _ Hc Hv) | absurd_field Hk]|]).
  destruct Hin.
Qed.

Lemma no_error_field_in_display (es : list (string * Exc Value))
    (result : Dict) (e : Value) :
  dict_display es = Return result ->
  ~ In "error" (map fst es) ->
  dict_lookup "error" (drop_None result) = Some e -> False.
Proof.
  intros Hd Hkeys Hlook. apply Hkeys.
  rewrite <- (dict_display_keys es result Hd).
  apply dict_lookup_In, drop_None_In in Hlook as [Hin _].
  apply (in_map fst) in Hin. exact Hin.
Qed.

(** X14: a record never mixes an error with data: whichever of the five
    tools returned it, a record with an [error] field consists of the
    ticker and the error message and nothing else. *)
Theorem error_records_carry_nothing_else
    (yf : Provider) (ticker period : string)
    (start_date end_date : option string) (now : Z) (r : Dict) (e : Value) :
  In r [get_stock_price yf ticker;
        get_historical_data yf ticker period start_date end_date;
        get_financial_info yf ticker;
        get_earnings_dates yf now ticker;
        get_analyst_recommendations yf ticker] ->
  dict_lookup "error" r = Some e ->
  exists msg, r = [("ticker", Str (upper ticker)); ("error", Str msg)].
Proof.
  intros Hin He.
  destruct Hin as [Hin|[Hin|[Hin|[Hin|[Hin|[]]]]]].
  - unfold get_stock_price in Hin. by_outcome Hin; subst r; [|eauto].
    do 2 returned Hr.
    destruct x0 as [[|kv d]|]; try (injection Hr as <-; eauto).
    returned Hr.
    destruct (_ <=? 1)%nat; injection Hr as <-; [eauto|].
    exfalso. apply (no_error_field_in_display _ _ e Hx1); [|exact He].
    simpl. intuition discriminate.
  - unfold get_historical_data in Hin. by_outcome Hin; subst r; [|eauto].
    do 2 returned Hr.
    destruct (df_empty x0); [injection Hr as <-; eauto|].
    returned Hr. destruct x1; injection Hr as <-; [eauto | discriminate].
  - unfold get_financial_info in Hin. by_outcome Hin; subst r; [|eauto].
    do 3 returned Hr. injection Hr as <-.
    exfalso. apply (no_error_field_in_display _ _ e Hx1); [|exact He].
    simpl. intuition discriminate.
  - unfold get_earnings_dates in Hin. by_outcome Hin; subst r; [|eauto].
    do 2 returned Hr.
    destruct x0 as [df|]; [|injection Hr as <-; discriminate].
    destruct (df_empty df); [injection Hr as <-; discriminate|].
    do 2 returned Hr. injection Hr as <-. discriminate.
  - unfold get_analyst_recommendations in Hin.
    by_outcome Hin; subst r; [|eauto].
    do 2 returned Hr.
    assert (Hinfo : forall r,
      (do info <- info x;
       do recommendation_key <- info_get "recommendationKey" info;
       if truthy recommendation_key then
         Return
           [("ticker", Str (upper ticker));
            ("currentRecommendation", recommendation_key);
            ("message", Str "Detailed recommendations history not available")]
       else
         Return
           [("ticker", Str (upper ticker));
            ("message", Str "No analyst recommendations available")])
      = Return r ->
      dict_lookup "error" r = None).
    { clear. intros r Hr. do 2 returned Hr.
      destruct (truthy x1); injection Hr as <-; reflexivity. }
    destruct x0 as [df|]; [|rewrite (Hinfo _ Hr) in He; discriminate].
    destruct (df_empty df); [rewrite (Hinfo _ Hr) in He; discriminate|].
    returned Hr. injection Hr as <-. discriminate.
Qed.

(** X23: where the fields of a [get_stock_price] record with
    alternatives come from: the current price is [info["currentPrice"]]
    unless that is missing, [None] or zero, in which case it is
    [info["regularMarketPrice"]]; likewise the open and the name; the
    currency is ["USD"] when [info] has no currency entry. *)
Theorem stock_price_fallbacks
    (yf : Provider) (ticker k : string) (v : Value) :
  In k ["currentPrice"; "open"; "currency"; "longName"] ->
  dict_lookup k (get_stock_price yf ticker) = Some v ->
  exists stock d,
    yf ticker = Return stock /\ info stock = Return (Some d)
    /\ ((k = "currentPrice"
         /\ safe_float_value
              (if truthy (dict_get "currentPrice" d)
               then dict_get "currentPrice" d
               else dict_get "regularMarketPrice" d) = Return v)
        \/ (k = "open"
            /\ safe_float_value
                 (if truthy (dict_get "regularMarketOpen" d)
                  then dict_get "regularMarketOpen" d
                  else dict_get "open" d) = Return v)
        \/ (k = "currency"
            /\ v = match dict_lookup "currency" d with
                   | Some c => c
                   | None => Str "USD"
                   end)
        \/ (k = "longName"
            /\ v = if truthy (dict_get "longName" d)
                   then dict_get "longName" d
                   else dict_get "shortName" d)).
Proof.
  intros Hk Hin. apply dict_lookup_In in Hin.
  assert (Herr : forall msg,
    In (k, v) [("ticker", Str (upper ticker)); ("error", Str msg)] -> False).
  { intros msg [Heq|[Heq|[]]]; injection Heq as <- _; absurd_field Hk. }
  unfold get_stock_price in Hin. by_outcome Hin; [|destruct (Herr _ Hin)].
  do 2 returned Hr.
  destruct x0 as [[|kv d]|];
    try (injection Hr as <-; destruct (Herr _ Hin)).
  returned Hr.
  destruct (_ <=? 1)%nat; injection Hr as <-; [destruct (Herr _ Hin)|].
  apply drop_None_In in Hin as [Hin Hv].
  apply (dict_display_In _ _ _ _ Hx1) in Hin.
  exists x, (kv :: d). split; [exact Hx|]. split; [exact Hx0|].
  cbn [In] in Hin.
  repeat (destruct Hin as [Hin|Hin];
    [injection Hin as <- Hc;
     first [absurd_field Hk
           | left; split; [reflexivity | exact Hc]
           | right; left; split; [reflexivity | exact Hc]
           | right; right; left; split;
               [reflexivity | symmetry; exact Hc]
           | right; right; right; split;
               [reflexivity | symmetry; exact Hc]]|]).
  destruct Hin.
Qed.

(** *** Historical data *)

(** X15: the date range is used only when both dates are given and not
    empty; a start date or an end date on its own is ignored and the call
    falls back to the period. *)
Theorem lone_date_falls_back_to_period
    (yf : Provider) (ticker period date : string) :
  get_historical_data yf ticker period (Some date) None
    = get_historical_data yf ticker period None None
  /\ get_historical_data yf ticker period None (Some date)
    = get_historical_data yf ticker period None None
  /\ get_historical_data yf ticker period (Some date) (Some EmptyString)
    = get_historical_data yf ticker period None None
  /\ get_historical_data yf ticker period (Some EmptyString) (Some date)
    = get_historical_data yf ticker period None None.
Proof.
  unfold get_historical_data. cbn [given]. rewrite !andb_false_r.
  repeat split; reflexivity.
Qed.

(** X16: a record with a [data] list is exactly the four-field success
    record: the ticker, the period that was queried -- the range when both
    dates were given, else the period argument --, the number of points,
    and the points. *)
Theorem historical_success_record
    (yf : Provider) (ticker period : string)
    (start_date end_date : option string) (points : list Value) :
  dict_lookup "data"
    (get_historical_data yf ticker period start_date end_date)
    = Some (VList points) ->
  get_historical_data yf ticker period start_date end_date
  = [("ticker", Str (upper ticker));
     ("period",
        Str (if given start_date && given end_date
             then default EmptyString start_date +:+ " to "
                  +:+ default EmptyString end_date
             else period));
     ("dataPoints", Int (Z.of_nat (length points)));
     ("data", VList points)].
Proof.
  unfold get_historical_data.
  match goal with
  | |- context [try_except_Exception ?b ?h] =>
      destruct (try_except_Exception_cases b h)
        as [(r & Hr & ->)|(e & _ & ->)]
  end; [|discriminate].
  do 2 returned Hr.
  destruct (df_empty x0); [injection Hr as <-; discriminate|].
  returned Hr. destruct x1 as [|p ps]; injection Hr as <-; [discriminate|].
  intros Hd. injection Hd as <-. reflexivity.
Qed.

Lemma hist_loop_cons (cols : list string) (date : IndexLabel)
    (cells : list Scalar) (rest : list (IndexLabel * list Scalar)) :
  hist_loop cols ((date, cells) :: rest)
  = (do keep <- all_notna ohlcv cols cells;
     do appended <-
       (if keep then
          try_except
            (do p <- data_point date cols cells; Return (Some p))
            catches_ValueError_TypeError
            (fun _ => Return None)
        else Return None);
     do hist_data <- hist_loop cols rest;
     Return (match appended with
             | Some p => p :: hist_data
             | None => hist_data
             end)).
Proof. reflexivity. Qed.

Lemma bind_Return_id {A} (c : Exc A) : (do x <- c; Return x) = c.
Proof. destruct c; reflexivity. Qed.

(** X17: a row in which one of the five values is missing ([None] or
    NaN), or whose conversion raises a [ValueError] or [TypeError], leaves
    no trace: the points are those of the frame without that row. *)
Theorem skipped_rows_leave_no_trace
    (cols : list string) (pre post : list (IndexLabel * list Scalar))
    (date : IndexLabel) (cells : list Scalar) :
  all_notna ohlcv cols cells = Return false
  \/ (all_notna ohlcv cols cells = Return true
      /\ exists e, data_point date cols cells = Raise e
                   /\ catches_ValueError_TypeError (exc_class e) = true) ->
  hist_loop cols (pre ++ (date, cells) :: post) = hist_loop cols (pre ++ post).
Proof.
  intros Hskip. induction pre as [|[d c] pre IH].
  - rewrite !app_nil_l, hist_loop_cons.
    destruct Hskip as [->|(-> & e & -> & Hc)]; cbn [Py.bind try_except].
    + apply bind_Return_id.
    + rewrite Hc. cbn [Py.bind]. apply bind_Return_id.
  - rewrite <- !app_comm_cons, !hist_loop_cons, IH. reflexivity.
Qed.

Lemma dict_display_cons_inv (k : string) (c : Exc Value)
    (es : list (string * Exc Value)) (d : Dict) :
  dict_display ((k, c) :: es) = Return d ->
  exists v d', c = Return v /\ dict_display es = Return d' /\ d = (k, v) :: d'.
Proof.
  cbn [dict_display]. intros Hd.
  apply bind_Return_inv in Hd as (v & Hv & Hd).
  apply bind_Return_inv in Hd as (d' & Hd' & Hd).
  injection Hd as <-. eauto.
Qed.

Lemma data_point_shape (date : IndexLabel) (cols : list string)
    (cells : list Scalar) (p : Value) :
  data_point date cols cells = Return p ->
  exists s o h l c v,
    strftime_ymd date = Return s
    /\ p = VDict [("date", Str s); ("open", Float o); ("high", Float h);
                  ("low", Float l); ("close", Float c); ("volume", Int v)].
Proof.
  unfold data_point. intros Hp. returned Hp. injection Hp as <-.
  apply dict_display_cons_inv in Hx as (v0 & d0 & H0 & Hx & ->).
  apply dict_display_cons_inv in Hx as (v1 & d1 & H1 & Hx & ->).
  apply dict_display_cons_inv in Hx as (v2 & d2 & H2 & Hx & ->).
  apply dict_display_cons_inv in Hx as (v3 & d3 & H3 & Hx & ->).
  apply dict_display_cons_inv in Hx as (v4 & d4 & H4 & Hx & ->).
  apply dict_display_cons_inv in Hx as (v5 & d5 & H5 & Hx & ->).
  injection Hx as <-.
  returned H0. injection H0 as <-.
  unfold rounded_price in H1, H2, H3, H4.
  do 2 returned H1. injection H1 as <-.
  do 2 returned H2. injection H2 as <-.
  do 2 returned H3. injection H3 as <-.
  do 2 returned H4. injection H4 as <-.
  do 2 returned H5. injection H5 as <-.
  eauto 10.
Qed.

(** X18: the points of a frame are at most as many as its rows, and each
    is a dict of exactly six fields: the date as text, the four prices as
    floats and the volume as an integer. *)
Theorem data_points_have_six_fields
    (cols : list string) (rows : list (IndexLabel * list Scalar))
    (points : list Value) :
  hist_loop cols rows = Return points ->
  (length points <= length rows)%nat
  /\ Forall (fun p => exists s o h l c v,
               p = VDict [("date", Str s); ("open", Float o);
                          ("high", Float h); ("low", Float l);
                          ("close", Float c); ("volume", Int v)]) points.
Proof.
  revert points. induction rows as [|[date cells] rows IH]; intros points Hp.
  - injection Hp as <-. split; [simpl; lia | constructor].
  - rewrite hist_loop_cons in Hp. do 3 returned Hp. injection Hp as <-.
    destruct (IH x1 Hx1) as [Hlen Hall].
    destruct x0 as [p|]; [|split; [simpl; lia | exact Hall]].
    split; [simpl; lia|]. constructor; [|exact Hall].
    destruct x; [|discriminate].
    unfold try_except in Hx0.
    destruct (data_point date cols cells) as [q|e] eqn:Hq; cbn [Py.bind] in Hx0.
    + injection Hx0 as <-.
      destruct (data_point_shape _ _ _ _ Hq) as (s & o & h & l & c & v & _ & ->).
      eauto 10.
    + destruct (catches_ValueError_TypeError (exc_class e)); discriminate.
Qed.

(** X19: the row guard holds exactly when each of the five columns is
    present in the row and its value is neither [None] nor NaN. *)
Theorem guard_passes_iff_all_present
    (names cols : list string) (cells : list Scalar) :
  all_notna names cols cells = Return true
  <-> Forall (fun name => exists x, series_lookup name cols cells = Some x
                                    /\ pd_notna x = true) names.
Proof.
  induction names as [|name names IH]; cbn [all_notna].
  - split; [constructor | reflexivity].
  - unfold series_getitem.
    destruct (series_lookup name cols cells) as [x|] eqn:Hx; cbn [Py.bind].
    + destruct (pd_notna x) eqn:Hn.
      * rewrite IH. split.
        -- intros Hall. constructor; [eauto | exact Hall].
        -- intros Hall. now inversion Hall.
      * split; [discriminate|]. intros Hall. inversion Hall as [|? ? [y [Hy Hyn]]].
        congruence.
    + split; [discriminate|]. intros Hall. inversion Hall as [|? ? [y [Hy _]]].
      congruence.
Qed.

(** *** Earnings dates and analyst recommendations *)

Lemma for_each_length {A B} (body : A -> Exc B) (l : list A) (ys : list B) :
  for_each body l = Return ys -> length ys = length l.
Proof.
  revert ys. induction l as [|a l IH]; intros ys Hys; cbn [for_each] in Hys.
  - now injection Hys as <-.
  - do 2 returned Hys. injection Hys as <-. simpl. now rewrite (IH x0 Hx0).
Qed.

(** X20: the search for the upcoming date returns the date of the first
    item, in list order, that is dated today or later; every item before
    it is dated earlier than today.  It returns [None] only when every
    item is dated earlier than today. *)
Theorem find_upcoming_is_the_first_future_item
    (today : Z) (earnings_list : list Value) (upcoming : Value) :
  find_upcoming today earnings_list = Return upcoming ->
  let dated_before item :=
    exists s t, item_date item = Return s /\ strptime_ymd s = Return t
                /\ t < today in
  (upcoming = None_ /\ Forall dated_before earnings_list)
  \/ (exists pre item post s t,
        earnings_list = pre ++ item :: post
        /\ Forall dated_before pre
        /\ item_date item = Return s /\ strptime_ymd s = Return t
        /\ today <= t /\ upcoming = Str s).
Proof.
  intros Hfind dated_before. revert Hfind.
  induction earnings_list as [|item items IH]; cbn [find_upcoming]; intros Hfind.
  - injection Hfind as <-. left. split; [reflexivity | constructor].
  - do 2 returned Hfind.
    destruct (today <=? x0) eqn:Hcmp.
    + injection Hfind as <-. right.
      exists [], item, items, x, x0. simpl.
      repeat split; try assumption; [constructor | lia].
    + assert (Hitem : dated_before item).
      { exists x, x0. repeat split; try assumption. lia. }
      destruct (IH Hfind) as [[-> Hall]|(pre & it & post & s & t & -> & Hpre & Hrest)].
      * left. split; [reflexivity | constructor; assumption].
      * right. exists (item :: pre), it, post, s, t.
        split; [reflexivity|]. split; [constructor; assumption | exact Hrest].
Qed.

Lemma find_upcoming_not_past (today : Z) (earnings_list : list Value)
    (upcoming : Value) :
  find_upcoming today earnings_list = Return upcoming ->
  upcoming = None_
  \/ exists s t, upcoming = Str s /\ strptime_ymd s = Return t /\ today <= t.
Proof.
  induction earnings_list as [|item items IH]; cbn [find_upcoming];
    intros Hfind.
  - injection Hfind as <-. now left.
  - do 2 returned Hfind. destruct (today <=? x0) eqn:Hcmp.
    + injection Hfind as <-. right. exists x, x0.
      repeat split; [assumption | lia].
    + exact (IH Hfind).
Qed.

(** X21: a record of [get_earnings_dates] lists at most ten dates, and the
    upcoming date it names, if any, is not in the past: it parses to a
    moment at or after the time of the call. *)
Theorem earnings_record_is_bounded_and_looks_ahead
    (yf : Provider) (now : Z) (ticker : string)
    (data : list Value) (upcoming : Value) :
  dict_lookup "data" (get_earnings_dates yf now ticker) = Some (VList data) ->
  dict_lookup "upcomingEarningsDate" (get_earnings_dates yf now ticker)
    = Some upcoming ->
  (length data <= 10)%nat
  /\ (upcoming = None_
      \/ exists s t, upcoming = Str s /\ strptime_ymd s = Return t
                     /\ now <= t).
Proof.
  unfold get_earnings_dates.
  match goal with
  | |- context [try_except_Exception ?b ?h] =>
      destruct (try_except_Exception_cases b h)
        as [(r & Hr & ->)|(e & _ & ->)]
  end; [|discriminate].
  do 2 returned Hr.
  destruct x0 as [df|]; [|injection Hr as <-; discriminate].
  destruct (df_empty df); [injection Hr as <-; discriminate|].
  do 2 returned Hr. injection Hr as <-.
  intros Hd Hu. injection Hd as <-. injection Hu as <-.
  split; [rewrite length_firstn; lia|].
  exact (find_upcoming_not_past now x0 x1 Hx2).
Qed.

(** X22: a record of [get_analyst_recommendations] lists at most twenty
    ratings, and [totalRecommendations] is the length of the list. *)
Theorem recommendations_record_is_bounded
    (yf : Provider) (ticker : string) (data : list Value) :
  dict_lookup "data" (get_analyst_recommendations yf ticker)
    = Some (VList data) ->
  (length data <= 20)%nat
  /\ dict_lookup "totalRecommendations"
       (get_analyst_recommendations yf ticker)
     = Some (Int (Z.of_nat (length data))).
Proof.
  unfold get_analyst_recommendations.
  match goal with
  | |- context [try_except_Exception ?b ?h] =>
      destruct (try_except_Exception_cases b h)
        as [(r & Hr & ->)|(e & _ & ->)]
  end; [|discriminate].
  do 2 returned Hr.
  assert (Hinfo : forall r,
    (do info <- info x;
     do recommendation_key <- info_get "recommendationKey" info;
     if truthy recommendation_key then
       Return
         [("ticker", Str (upper ticker));
          ("currentRecommendation", recommendation_key);
          ("message", Str "Detailed recommendations history not available")]
     else
       Return
         [("ticker", Str (upper ticker));
          ("message", Str "No analyst recommendations available")])
    = Return r ->
    dict_lookup "data" r = None).
  { clear. intros r Hr. do 2 returned Hr.
    destruct (truthy x1); injection Hr as <-; reflexivity. }
  destruct x0 as [df|]; [|rewrite (Hinfo _ Hr); discriminate].
  destruct (df_empty df); [rewrite (Hinfo _ Hr); discriminate|].
  returned Hr. injection Hr as <-.
  intros Hd. injection Hd as <-.
  split; [|reflexivity].
  rewrite (for_each_length _ _ _ Hx1). unfold tail. simpl.
  rewrite length_skipn. lia.
Qed.

End ToolOutcomes.

(** *** Worked records *)

Lemma sample_price_is_not_None :
  Tools.is_None (Tools.Float f185_5) = false.
Proof.
  apply (@price_and_financial_records_hold_no_None Sample.runtime
           (info_only sample_info) "aapl" "currentPrice" (Tools.Float f185_5)).
  left. vm_compute. auto.
Defined.

Lemma sample_price_is_finite :
  exists f, Tools.Float f185_5 = Tools.Float f /\ Tools.is_finite f = true.
Proof.
  apply (@stock_price_numbers_are_finite Sample.runtime
           (info_only sample_info) "aapl" "currentPrice" (Tools.Float f185_5)).
  - left. reflexivity.
  - reflexivity.
Defined.

Lemma sample_market_cap_is_finite :
  exists f, Tools.Float f_market_cap = Tools.Float f
            /\ Tools.is_finite f = true.
Proof.
  apply (@financial_numbers_are_finite Sample.runtime
           (info_only sample_info) "aapl" "marketCap"
           (Tools.Float f_market_cap)).
  - left. reflexivity.
  - reflexivity.
Defined.

Lemma unreachable_provider_error_record :
  exists msg,
    @Tools.get_earnings_dates Sample.runtime unreachable_provider 0 "aapl"
    = [("ticker", Tools.Str (Tools.upper "aapl")); ("error", Tools.Str msg)].
Proof.
  apply (@error_records_carry_nothing_else Sample.runtime
           unreachable_provider "aapl" "1mo" None None 0
           (@Tools.get_earnings_dates Sample.runtime unreachable_provider 0 "aapl")
           (Tools.Str "Failed to fetch earnings dates: network down")).
  - right. right. right. left. reflexivity.
  - reflexivity.
Defined.

Lemma half_nan_success_record :
  @Tools.get_historical_data Sample.runtime (history_only frame_half_nan)
    "aapl" "1mo" (Some "2024-01-01") (Some "2024-02-01")
  = [("ticker", Tools.Str (Tools.upper "aapl"));
     ("period",
        Tools.Str (if Tools.given (Some "2024-01-01")
                      && Tools.given (Some "2024-02-01")
                   then default EmptyString (Some "2024-01-01") +:+ " to "
                        +:+ default EmptyString (Some "2024-02-01")
                   else "1mo"));
     ("dataPoints", Tools.Int (Z.of_nat (length sample_points)));
     ("data", Tools.VList sample_points)].
Proof.
  apply (@historical_success_record Sample.runtime).
  reflexivity.
Defined.

Lemma nan_row_leaves_no_trace :
  @Tools.hist_loop Sample.runtime Tools.ohlcv
    ([quote_row "2024-01-15" f185_5 f52300000]
     ++ quote_row "2024-01-16" Tools.nan f52300000 :: [])
  = @Tools.hist_loop Sample.runtime Tools.ohlcv
      ([quote_row "2024-01-15" f185_5 f52300000] ++ []).
Proof.
  apply (@skipped_rows_leave_no_trace Sample.runtime Tools.ohlcv
           [quote_row "2024-01-15" f185_5 f52300000] []
           (Tools.Timestamp "2024-01-16")).
  left. reflexivity.
Defined.

Lemma sample_points_have_six_fields :
  (length sample_points <= length (Tools.rows frame_half_nan))%nat
  /\ Forall (fun p => exists s o h l c v,
               p = Tools.VDict
                     [("date", Tools.Str s); ("open", Tools.Float o);
                      ("high", Tools.Float h); ("low", Tools.Float l);
                      ("close", Tools.Float c); ("volume", Tools.Int v)])
            sample_points.
Proof.
  apply (@data_points_have_six_fields Sample.runtime Tools.ohlcv).
  reflexivity.
Defined.

Lemma upcoming_of_sample_items :
  let dated_before item :=
    exists s t, Tools.item_date item = Return s
                /\ @Tools.strptime_ymd Sample.runtime s = Return t
                /\ t < mid_september in
  (Tools.Str "2024-10-31" = Tools.None_ /\ Forall dated_before earnings_items)
  \/ (exists pre item post s t,
        earnings_items = pre ++ item :: post
        /\ Forall dated_before pre
        /\ Tools.item_date item = Return s
        /\ @Tools.strptime_ymd Sample.runtime s = Return t
        /\ mid_september <= t /\ Tools.Str "2024-10-31" = Tools.Str s).
Proof.
  apply (@find_upcoming_is_the_first_future_item Sample.runtime
           mid_september earnings_items (Tools.Str "2024-10-31")).
  reflexivity.
Defined.

Lemma sample_earnings_record_looks_ahead :
  (length sample_earnings_data <= 10)%nat
  /\ (Tools.Str "2024-10-31" = Tools.None_
      \/ exists s t, Tools.Str "2024-10-31" = Tools.Str s
                     /\ @Tools.strptime_ymd Sample.runtime s = Return t
                     /\ mid_september <= t).
Proof.
  apply (@earnings_record_is_bounded_and_looks_ahead Sample.runtime
           (earnings_only earnings_frame) mid_september "aapl").
  - reflexivity.
  - reflexivity.
Defined.

Lemma sample_ratings_record_is_bounded :
  (length sample_ratings_data <= 20)%nat
  /\ Tools.dict_lookup "totalRecommendations"
       (@Tools.get_analyst_recommendations Sample.runtime
          (recommendations_only ratings_frame) "aapl")
     = Some (Tools.Int (Z.of_nat (length sample_ratings_data))).
Proof.
  apply (@recommendations_record_is_bounded Sample.runtime
           (recommendations_only ratings_frame) "aapl").
  reflexivity.
Defined.

Lemma zero_price_falls_back :
  exists stock d,
    info_only zero_price_info "aapl" = Return stock
    /\ Tools.info stock = Return (Some d)
    /\ (("currentPrice" = "currentPrice"
         /\ @Tools.safe_float_value Sample.runtime
              (if Tools.truthy (Tools.dict_get "currentPrice" d)
               then Tools.dict_get "currentPrice" d
               else Tools.dict_get "regularMarketPrice" d)
            = Return (Tools.Float f185_5))
        \/ ("currentPrice" = "open"
            /\ @Tools.safe_float_value Sample.runtime
                 (if Tools.truthy (Tools.dict_get "regularMarketOpen" d)
                  then Tools.dict_get "regularMarketOpen" d
                  else Tools.dict_get "open" d)
               = Return (Tools.Float f185_5))
        \/ ("currentPrice" = "currency"
            /\ Tools.Float f185_5
               = match Tools.dict_lookup "currency" d with
                 | Some c => c
                 | None => Tools.Str "USD"
                 end)
        \/ ("currentPrice" = "longName"
            /\ Tools.Float f185_5
               = if Tools.truthy (Tools.dict_get "longName" d)
                 then Tools.dict_get "longName" d
                 else Tools.dict_get "shortName" d)).
Proof.
  apply (@stock_price_fallbacks Sample.runtime (info_only zero_price_info)
           "aapl" "currentPrice" (Tools.Float f185_5)).
  - left. reflexivity.
  - reflexivity.
Defined.

Example zero_price_record :
  @Tools.get_stock_price Sample.runtime (info_only zero_price_info) "aapl"
  = [("ticker", Tools.Str "AAPL");
     ("currentPrice", Tools.Float f185_5);
     ("currency", Tools.Str "USD");
     ("longName", Tools.Str "Apple")].
Proof. reflexivity. Qed.
